(** * watir_snake: selector compilation and relaxed locating

    A shallow embedding of
      - [watir_snake/locators/row/selector_builder.py]
        ([SelectorBuilder._build_wd_selector]), and
      - [watir_snake/elements/element.py] (the [Element] orchestration:
        [stale], [assert_exists], the [wait_for_*] family and
        [_element_call]).

    Python objects are modelled by the inductive [value]; a [dict] is an
    insertion-ordered association list; code that raises returns an
    [outcome]; the methods of [Element] live in a state monad over the fields
    the source reads and writes, which also records the calls made to
    collaborators. *)

From Stdlib Require Import ZArith List String Ascii Bool Lia DecimalString.
Import ListNotations.
Local Open Scope string_scope.
Local Open Scope Z_scope.

(** ** Python values and exceptions *)

Module Py.

(** The Python objects a selector can hold. [VPattern] is a compiled regular
    expression ([re._pattern_type]); its argument is the pattern source. *)
Inductive value : Type :=
| VNone
| VBool (b : bool)
| VInt (z : Z)
| VStr (s : string)
| VPattern (src : string).

(** Truth value of an object, as [if x] / [not x] compute it. *)
Definition truthy (v : value) : bool :=
  match v with
  | VNone => false
  | VBool b => b
  | VInt z => negb (z =? 0)
  | VStr EmptyString => false
  | VStr _ => true
  | VPattern _ => true
  end.

(** [x is None] *)
Definition is_None (v : value) : bool :=
  match v with VNone => true | _ => false end.

(** [isinstance(x, re._pattern_type)] *)
Definition is_pattern (v : value) : bool :=
  match v with VPattern _ => true | _ => false end.

(** The exception classes the two modules raise or catch. Every class is a
    constructor of its own: an [except C] clause catches exactly [C].
    [DriverError] stands for any other exception a collaborator raises. *)
Inductive exn : Type :=
| StaleElementReferenceException
| InvalidElementStateException
| TimeoutError
| UnknownObjectException (msg : string)
| UnknownFrameException (msg : string)
| ObjectDisabledException (msg : string)
| ObjectReadOnlyException (msg : string)
| Error (msg : string)
| TypeError (msg : string)
| AttributeError (msg : string)
| DriverError (code : nat).

(** What a call does: it returns a value or it raises. *)
Inductive outcome (A : Type) : Type :=
| Return (a : A)
| Raise (e : exn).
Arguments Return {A} a.
Arguments Raise {A} e.

(** A [dict], in insertion order. Iterating a dict yields its keys. *)
Definition dict : Type := list (value * value).

Definition keys (d : dict) : list value := map fst d.
Definition values (d : dict) : list value := map snd d.

(** [k == name] for a string [name]: only a [str] key equals a [str]. *)
Definition key_is (name : string) (k : value) : bool :=
  match k with VStr s => String.eqb name s | _ => false end.

(** [d.pop(name, None)]: the value stored under [name] (or [None]) and the
    dict without that entry. *)
Fixpoint pop (name : string) (d : dict) : value * dict :=
  match d with
  | [] => (VNone, [])
  | (k, v) :: rest =>
      if key_is name k then (v, rest)
      else let (r, rest') := pop name rest in (r, (k, v) :: rest')
  end.

(** [d.get(name)] *)
Fixpoint get (name : string) (d : dict) : value :=
  match d with
  | [] => VNone
  | (k, v) :: rest => if key_is name k then v else get name rest
  end.

(** A dict holds a key once. *)
Fixpoint unique_key (name : string) (d : dict) : bool :=
  match d with
  | [] => true
  | (k, _) :: rest =>
      if key_is name k then negb (existsb (key_is name) (keys rest))
      else unique_key name rest
  end.

(** Decimal text of an integer, as ['{}'.format(n)] prints it. *)
Definition dec (z : Z) : string := NilZero.string_of_int (Z.to_int z).

End Py.
Import Py.

(** ** The row selector builder *)

Module Row.

Section Builder.

(** [self.query_scope.tag_name.lower()]: the lowered tag of the owning
    scope, or the exception that reading it raises. *)
Variable scope_tag_name : outcome string.

(** [self.xpath_builder.attribute_expression(None, selectors)]: the
    predicate text built from the remaining constraints, or the exception
    the XPath builder raises (the XPath builder is a collaborator; it is
    taken not to modify the dict). *)
Variable attribute_expression : dict -> outcome string.

Definition non_empty (s : string) : bool :=
  match s with EmptyString => false | _ => true end.

(** [SelectorBuilder._build_wd_selector(selectors)]. The dict is mutated in
    place by [pop], so the dict the caller holds afterwards is returned with
    the outcome. [None] is the Python [None]; [Some [l; q]] is the list
    [[l, q]]. The [logging.debug] line has no effect on either. *)
Definition _build_wd_selector (selectors : dict)
  : outcome (option (list string)) * dict :=
  (* any(isinstance(selector, re._pattern_type) for selector in selectors) *)
  if existsb is_pattern (keys selectors) then (Return None, selectors)
  else
    let (tag, selectors) := pop "tag_name" selectors in
    if negb (truthy tag) then
      (Raise (Error "internal error: no tag_name?!"), selectors)
    else
      let expressions := ["./tr"] in
      match scope_tag_name with
      | Raise e => (Raise e, selectors)
      | Return scope_tag =>
          let expressions :=
            if negb (existsb (String.eqb scope_tag) ["tbody"; "tfoot"; "thead"])
            then (expressions ++ ["./body/tr"; "./thead/tr"; "./tfoot/tr"])%list
            else expressions in
          match attribute_expression selectors with
          | Raise e => (Raise e, selectors)
          | Return attr_expr =>
              let expressions :=
                if non_empty attr_expr
                then map (fun e => e ++ "[" ++ attr_expr ++ "]") expressions
                else expressions in
              let xpath := String.concat " | " expressions in
              (Return (Some ["xpath"; xpath]), selectors)
          end
      end.

End Builder.

(** The query the builder assembles around a predicate text [attr_expr],
    for a scope whose lowered tag is [scope_tag]. *)
Definition row_xpath (scope_tag attr_expr : string) : string :=
  String.concat " | "
    (map (fun e => if non_empty attr_expr then e ++ "[" ++ attr_expr ++ "]" else e)
         (if negb (existsb (String.eqb scope_tag) ["tbody"; "tfoot"; "thead"])
          then ["./tr"; "./body/tr"; "./thead/tr"; "./tfoot/tr"]
          else ["./tr"])).

(** What the builder answers once ['tag_name'] has been found: the scope's
    tag is read first, then the remaining constraints are compiled; a failure
    of either propagates. *)
Definition row_result (scope : outcome string) (attr : outcome string)
  : outcome (option (list string)) :=
  match scope with
  | Raise e => Raise e
  | Return scope_tag =>
      match attr with
      | Raise e => Raise e
      | Return attr_expr => Return (Some ["xpath"; row_xpath scope_tag attr_expr])
      end
  end.

(** A selector mapping: its keys are attribute names. *)
Definition selector_mapping : Type := list (string * value).

(** The dict that holds a selector mapping. *)
Definition as_dict (sel : selector_mapping) : dict :=
  map (fun kv => (VStr (fst kv), snd kv)) sel.

(** [{'tag_name': 'tr', 'id': re.compile('foo')}] *)
Definition regex_selector : dict :=
  [(VStr "tag_name", VStr "tr"); (VStr "id", VPattern "foo")].

End Row.

(** ** The index wrapper of the element selector builder *)

Module Index.

(** [repr(x)] and [type(x)] as they appear in the type-mismatch message. *)
Definition repr (v : value) : string :=
  match v with
  | VNone => "None"
  | VBool true => "True"
  | VBool false => "False"
  | VInt z => dec z
  | VStr s => "'" ++ s ++ "'"
  | VPattern s => "re.compile('" ++ s ++ "')"
  end.

Definition type_name (v : value) : string :=
  match v with
  | VNone => "<class 'NoneType'>"
  | VBool _ => "<class 'bool'>"
  | VInt _ => "<class 'int'>"
  | VStr _ => "<class 'str'>"
  | VPattern _ => "<class '_sre.SRE_Pattern'>"
  end.

(** Modelled from the spec: the element selector builder's handling of the
    [index] constraint, whose source is not part of the excerpt (only its
    tests are). [index = 0] is the identity; [index > 0] wraps the whole
    expression with the 1-based position [index + 1]; [index < 0] wraps it
    with [last() - (|index| - 1)], [index = -1] being [last()]; any value that
    is not an integer is a type mismatch. The shape of the wrapper and of the
    message is the one the tests expect. *)
Definition add_index (xpath : string) (index : value) : outcome string :=
  match index with
  | VInt k =>
      if k =? 0 then Return xpath
      else if 0 <? k then Return ("(" ++ xpath ++ ")[" ++ dec (k + 1) ++ "]")
      else if k =? -1 then Return ("(" ++ xpath ++ ")[last()]")
      else Return ("(" ++ xpath ++ ")[last()-" ++ dec (Z.abs k - 1) ++ "]")
  | v =>
      Raise (TypeError ("expected one of [<class 'int'>], got "
                          ++ repr v ++ ":" ++ type_name v))
  end.

Definition is_int (v : value) : bool :=
  match v with VInt _ => true | _ => false end.

End Index.

(** ** The Element orchestration *)

Module Elem.

(** The calls an [Element] makes to its collaborators and to the shared
    timer, in the order it makes them. *)
Inductive event : Type :=
| EvTimerInstall          (* Wait.timer = Timer(timeout=...) *)
| EvTimerReset            (* Wait.timer.reset() *)
| EvProbe                 (* self.element.enabled, the liveness probe *)
| EvDriverEnabled         (* self.element.enabled, inside an action *)
| EvReadonly              (* self.readonly *)
| EvScopeSwitchTo         (* self.query_scope.switch_to() *)
| EvScopeAssertExists     (* self.query_scope.assert_exists() *)
| EvScopeWaitForExists    (* self.query_scope.wait_for_exists() *)
| EvScopeWaitForPresent   (* self.query_scope.wait_for_present() *)
| EvLocate                (* locator.locate() *)
| EvWaitUntil             (* self.wait_until(...) *)
| EvWarn                  (* warnings.warn(...) *)
| EvExistCheck            (* a caller-supplied exist_check() *)
| EvMethod.               (* a caller-supplied method() *)

Definition event_eqb (a b : event) : bool :=
  match a, b with
  | EvTimerInstall, EvTimerInstall | EvTimerReset, EvTimerReset
  | EvProbe, EvProbe | EvDriverEnabled, EvDriverEnabled
  | EvReadonly, EvReadonly | EvScopeSwitchTo, EvScopeSwitchTo
  | EvScopeAssertExists, EvScopeAssertExists
  | EvScopeWaitForExists, EvScopeWaitForExists
  | EvScopeWaitForPresent, EvScopeWaitForPresent
  | EvLocate, EvLocate | EvWaitUntil, EvWaitUntil | EvWarn, EvWarn
  | EvExistCheck, EvExistCheck | EvMethod, EvMethod => true
  | _, _ => false
  end.

(** How often a call occurs in a trace. *)
Definition occurrences (ev : event) (t : list event) : nat :=
  List.length (filter (event_eqb ev) t).

(** The three parts of a run. *)
Definition outcome_of {A S} (r : outcome A * S * list event) : outcome A :=
  let '(o, _, _) := r in o.
Definition state_of {A S} (r : outcome A * S * list event) : S :=
  let '(_, s, _) := r in s.
Definition trace_of {A S} (r : outcome A * S * list event) : list event :=
  let '(_, _, t) := r in t.

Section Model.

(** [handle] is a driver-side element, [Timer] the class of
    [watir_snake/wait/timer.py], [Ext] whatever else the process holds (the
    browser, the clock). *)
Context {handle Timer Ext : Type}.

(** The fields of [self] and the module-level variables the methods read and
    write: [self.element], [self.selector], [self.keyword],
    [watir_snake.relaxed_locate], [watir_snake.default_timeout],
    [Wait.timer], the warnings emitted so far. *)
Record State : Type := mkState {
  element : option handle;
  selector : dict;
  keyword : option string;
  relaxed_locate : bool;
  default_timeout : Z;
  Wait_timer : Timer;
  warnings : list string;
  ext : Ext
}.

Definition set_element (h : option handle) (s : State) : State :=
  mkState h (selector s) (keyword s) (relaxed_locate s) (default_timeout s)
          (Wait_timer s) (warnings s) (ext s).

Definition set_timer (t : Timer) (s : State) : State :=
  mkState (element s) (selector s) (keyword s) (relaxed_locate s)
          (default_timeout s) t (warnings s) (ext s).

Definition add_warning (w : string) (s : State) : State :=
  mkState (element s) (selector s) (keyword s) (relaxed_locate s)
          (default_timeout s) (Wait_timer s) (warnings s ++ [w])%list (ext s).

(** A method: from the state to its outcome, the new state and the calls it
    made. The state survives an exception. *)
Definition M (A : Type) : Type := State -> outcome A * State * list event.

Definition ret {A} (a : A) : M A := fun s => (Return a, s, []).

Definition raise {A} (e : exn) : M A := fun s => (Raise e, s, []).

Definition bind {A B} (c : M A) (k : A -> M B) : M B :=
  fun s =>
    match c s with
    | (Return a, s1, t1) => let '(r, s2, t2) := k a s1 in (r, s2, (t1 ++ t2)%list)
    | (Raise e, s1, t1) => (Raise e, s1, t1)
    end.

(** [try: c  except <the classes h accepts>: h e] *)
Definition try_except {A} (c : M A) (h : exn -> option (M A)) : M A :=
  fun s =>
    match c s with
    | (Return a, s1, t1) => (Return a, s1, t1)
    | (Raise e, s1, t1) =>
        match h e with
        | Some k => let '(r, s2, t2) := k s1 in (r, s2, (t1 ++ t2)%list)
        | None => (Raise e, s1, t1)
        end
    end.

(** [try: c  finally: f] *)
Definition try_finally {A} (c : M A) (f : M unit) : M A :=
  fun s =>
    let '(r, s1, t1) := c s in
    match f s1 with
    | (Return _, s2, t2) => (r, s2, (t1 ++ t2)%list)
    | (Raise e, s2, t2) => (Raise e, s2, (t1 ++ t2)%list)
    end.

(** A call to a collaborator, recorded under [ev]. *)
Definition call {A} (ev : event) (f : State -> outcome A * State) : M A :=
  fun s => let (r, s1) := f s in (r, s1, [ev]).

Definition gets {A} (f : State -> A) : M A := fun s => (Return (f s), s, []).

Definition modify (f : State -> State) : M unit :=
  fun s => (Return tt, f s, []).

(** What [wait_until] is handed: an object already evaluated, or a callable. *)
Inductive waited : Type :=
| Obj (v : value)
| Fn (f : M value).

(** The collaborators of [Element]: the driver, the owning scope, the
    locator, [Waitable.wait_until] and the [Timer] class. Each may change
    anything in the state and may raise. *)
Class Collaborators : Type := {
  (* Timer.locked, Timer(timeout=...), Timer.reset() *)
  locked : Timer -> value;
  Timer_new : Z -> State -> Timer;
  Timer_reset : Timer -> Timer;
  (* the wire call behind handle.enabled *)
  wd_enabled : handle -> State -> outcome value * State;
  (* self.readonly, where the class of self defines it *)
  readonly : option (State -> outcome value * State);
  (* isinstance(self.query_scope, IFrame) / Browser *)
  scope_is_iframe : bool;
  scope_is_browser : bool;
  scope_selector_string : State -> string;
  scope_switch_to : State -> outcome unit * State;
  scope_assert_exists : State -> outcome unit * State;
  scope_wait_for_exists : State -> outcome unit * State;
  scope_wait_for_present : State -> outcome unit * State;
  (* building the Locator and running locator.locate() *)
  locator_locate : State -> outcome (option handle) * State;
  (* Waitable.wait_until *)
  wait_until : waited -> State -> outcome unit * State;
  (* self.__class__.__name__ and '{}'.format(a dict) *)
  class_name : string;
  format_dict : dict -> string
}.

Context {C : Collaborators}.

Notation "x <- c ;; k" := (bind c (fun x => k))
  (at level 61, c at next level, right associativity).
Notation "c ;;; k" := (bind c (fun _ => k))
  (at level 61, right associativity).

(** [Element.selector_string] *)
Definition selector_string (s : State) : string :=
  if scope_is_browser then format_dict (selector s)
  else scope_selector_string s ++ " --> " ++ format_dict (selector s).

(** [Element.__repr__], which ['{}'.format(self)] prints. *)
Definition repr (s : State) : string :=
  let string := "#<#" ++ class_name ++ ": " in
  let string :=
    match keyword s with
    | Some (String a k) => string ++ "keyword: " ++ String a k ++ " "
    | _ => string
    end in
  let string :=
    string ++ "located: "
           ++ (match element s with Some _ => "True" | None => "False" end)
           ++ "; " in
  let string :=
    match selector s with
    | [] => string ++ "{element: (selenium element)}"
    | _ => string ++ selector_string s
    end in
  string ++ ">".

(** [Element.stale] *)
Definition stale : M bool :=
  try_except
    (e <- gets element ;;
     match e with
     | None => raise (Error "Can not check staleness of unused element")
     | Some h => call EvProbe (wd_enabled h) ;;; ret false
     end)
    (fun e => match e with
              | StaleElementReferenceException => Some (ret true)
              | _ => None
              end).

(** [Element.reset] *)
Definition reset : M unit := modify (set_element None).

(** [Element.assert_element_found] *)
Definition assert_element_found : M unit :=
  e <- gets element ;;
  match e with
  | None =>
      me <- gets repr ;;
      raise (UnknownObjectException ("unable to locate element: " ++ me))
  | Some _ => ret tt
  end.

(** [Element._ensure_context] *)
Definition _ensure_context : M unit :=
  if scope_is_iframe then call EvScopeSwitchTo scope_switch_to
  else call EvScopeAssertExists scope_assert_exists.

(** [Element.locate] *)
Definition locate : M (option handle) :=
  _ensure_context ;;; call EvLocate locator_locate.

(** [Element.assert_exists] *)
Definition assert_exists : M unit :=
  e <- gets element ;;
  sel <- gets selector ;;
  match e, sel with
  | Some _, [] =>
      _ensure_context ;;;
      st <- stale ;;
      (if st : bool then reset else ret tt) ;;;
      assert_element_found
  | Some _, _ :: _ =>
      st <- stale ;;
      if st : bool then
        h <- locate ;; modify (set_element h) ;;; assert_element_found
      else ret tt
  | None, _ =>
      h <- locate ;; modify (set_element h) ;;; assert_element_found
  end.

(** [Element.exists] *)
Definition exists_ : M bool :=
  try_except (assert_exists ;;; ret true)
    (fun e => match e with
              | UnknownObjectException _ | UnknownFrameException _ =>
                  Some (ret false)
              | _ => None
              end).

Definition exists_advice : string :=
  "This code has slept for the duration of the default timeout waiting for an "
  ++ "Element to exist. If the test is still passing, consider using "
  ++ "Element#exists instead of catching UnknownObjectException".

Definition present_advice : string :=
  "This code has slept for the duration of the default timeout waiting for an "
  ++ "Element to exist. If the test is still passing, consider using "
  ++ "Element#present instead of catching UnknownObjectException".

Definition warn (w : string) : M unit :=
  fun s => (Return tt, add_warning w s, [EvWarn]).

(** The message of the not-found failure raised on a timeout. *)
Definition located_timeout_message (s : State) : string :=
  "timed out after " ++ dec (default_timeout s) ++ " seconds, waiting for "
  ++ repr s ++ " to be located".

(** The [except TimeoutError] clause of [wait_for_exists] and
    [wait_for_present]. *)
Definition on_locate_timeout (advice : string) (e : exn) : option (M unit) :=
  match e with
  | TimeoutError =>
      Some (t <- gets default_timeout ;;
            (if negb (t =? 0) then warn advice else ret tt) ;;;
            msg <- gets located_timeout_message ;;
            raise (UnknownObjectException msg))
  | _ => None
  end.

(** [Element.wait_for_exists] *)
Definition wait_for_exists : M unit :=
  relaxed <- gets relaxed_locate ;;
  if negb relaxed then assert_exists
  else
    ex <- exists_ ;;
    if ex : bool then ret tt
    else
      try_except
        (call EvScopeWaitForExists scope_wait_for_exists ;;;
         ex <- exists_ ;;
         call EvWaitUntil (wait_until (Obj (VBool ex))))
        (on_locate_timeout exists_advice).

(** [Element.wait_for_present] *)
Definition wait_for_present : M unit :=
  relaxed <- gets relaxed_locate ;;
  if negb relaxed then assert_exists
  else
    try_except
      (call EvScopeWaitForPresent scope_wait_for_present ;;;
       ex <- exists_ ;;
       call EvWaitUntil (wait_until (Obj (VBool ex))))
      (on_locate_timeout present_advice).

(** The guard of [_element_call]: install a deadline when the shared timer
    reports no lock ([Wait.timer.locked is None]). *)
Definition acquire_timer : M unit :=
  fun s =>
    if is_None (locked (Wait_timer s))
    then (Return tt, set_timer (Timer_new (default_timeout s) s) s,
          [EvTimerInstall])
    else (Return tt, s, []).

(** The [finally] clause of [_element_call]. *)
Definition release_timer : M unit :=
  fun s =>
    if is_None (locked (Wait_timer s))
    then (Return tt, set_timer (Timer_reset (Wait_timer s)) s, [EvTimerReset])
    else (Return tt, s, []).

(** The [try] / [except StaleElementReferenceException] part of
    [_element_call]. *)
Definition attempt {A} (method : M A) (exist_check : M unit) : M A :=
  try_except (exist_check ;;; method)
    (fun e => match e with
              | StaleElementReferenceException =>
                  Some (exist_check ;;; method)
              | _ => None
              end).

(** [Element._element_call(method, exist_check=None)] *)
Definition _element_call {A} (method : M A) (exist_check : option (M unit))
  : M A :=
  let exist_check :=
    match exist_check with Some f => f | None => wait_for_exists end in
  acquire_timer ;;;
  try_finally (attempt method exist_check) release_timer.

(** [lambda: self.element.enabled] *)
Definition element_enabled : M value :=
  e <- gets element ;;
  match e with
  | Some h => call EvDriverEnabled (wd_enabled h)
  | None =>
      raise (AttributeError "'NoneType' object has no attribute 'enabled'")
  end.

(** [Element.enabled] *)
Definition enabled : M value :=
  _element_call element_enabled (Some assert_exists).

(** [Element._assert_enabled] *)
Definition _assert_enabled : M unit :=
  v <- _element_call element_enabled None ;;
  if negb (truthy v) then
    me <- gets repr ;;
    raise (ObjectDisabledException ("object is disabled " ++ me))
  else ret tt.

(** [getattr(self, 'readonly', None)] *)
Definition getattr_readonly : M value :=
  match readonly with
  | Some f =>
      try_except (call EvReadonly f)
        (fun e => match e with
                  | AttributeError _ => Some (ret VNone)
                  | _ => None
                  end)
  | None => ret VNone
  end.

(** [self.readonly] *)
Definition self_readonly : M value :=
  match readonly with
  | Some f => call EvReadonly f
  | None => raise (AttributeError "'readonly' is not a valid attribute")
  end.

(** [Element._assert_writable] *)
Definition _assert_writable : M unit :=
  _assert_enabled ;;;
  v <- getattr_readonly ;;
  if truthy v then
    v' <- self_readonly ;;
    if truthy v' then
      me <- gets repr ;;
      raise (ObjectReadOnlyException ("object is read only " ++ me))
    else ret tt
  else ret tt.

(** [lambda: not getattr(self, 'readonly', None) or not self.readonly] *)
Definition not_readonly : M value :=
  v <- getattr_readonly ;;
  if negb (truthy v) then ret (VBool true)
  else v' <- self_readonly ;; ret (VBool (negb (truthy v'))).

Definition disabled_timeout_message (s : State) : string :=
  "element present, but timed out after " ++ dec (default_timeout s)
  ++ " seconds, waiting for " ++ repr s ++ " to be enabled".

Definition readonly_timeout_message (s : State) : string :=
  "element present and enabled, but timed out after "
  ++ dec (default_timeout s) ++ " seconds, waiting for " ++ repr s
  ++ " to not be readonly".

(** [Element.wait_for_enabled] *)
Definition wait_for_enabled : M unit :=
  relaxed <- gets relaxed_locate ;;
  if negb relaxed then _assert_enabled
  else
    wait_for_present ;;;
    try_except
      (v <- enabled ;; call EvWaitUntil (wait_until (Obj v)))
      (fun e => match e with
                | TimeoutError =>
                    Some (msg <- gets disabled_timeout_message ;;
                          raise (ObjectDisabledException msg))
                | _ => None
                end).

(** [Element.wait_for_writable] *)
Definition wait_for_writable : M unit :=
  relaxed <- gets relaxed_locate ;;
  if negb relaxed then _assert_writable
  else
    wait_for_enabled ;;;
    try_except
      (call EvWaitUntil (wait_until (Fn not_readonly)))
      (fun e => match e with
                | TimeoutError =>
                    Some (msg <- gets readonly_timeout_message ;;
                          raise (ObjectReadOnlyException msg))
                | _ => None
                end).

(** [self.element = self.locate()] followed by
    [self.assert_element_found()], the tail of [assert_exists] when it
    resolves. *)
Definition resolve : M unit :=
  h <- locate ;; modify (set_element h) ;;; assert_element_found.

(** What [wait_for_exists] and [wait_for_present] leave behind when their
    [except TimeoutError] clause has run from state [s]: the advice is
    emitted unless the default timeout is zero. *)
Definition after_timeout (advice : string) (s : State) : State * list event :=
  if default_timeout s =? 0 then (s, [])
  else (add_warning advice s, [EvWarn]).




End Model.

Arguments State : clear implicits.
Arguments Collaborators : clear implicits.
Arguments M : clear implicits.

(** The calls to the caller-supplied [exist_check] and [method] in a trace. *)
Definition calls (t : list event) : list event :=
  filter (fun e => event_eqb e EvExistCheck || event_eqb e EvMethod) t.

End Elem.

(** ** A small page to run the methods on

    Handles are numbers: [0] is a node that has left the DOM, [1] an enabled
    and writable field, [2] a disabled one, [3] an enabled read-only one; on
    any other handle the driver fails. [ext] is the handle the locator finds
    on the page right now ([0]: nothing). A timer is its end time together
    with the mark of a wait in progress; [locked] answers [None] when there
    is no such mark. *)

Module Demo.
Import Elem.

Definition timer : Type := option Z * bool.

Definition St : Type := State nat timer nat.

Definition probe (h : nat) (s : St) : outcome value * St :=
  match h with
  | 0%nat => (Raise StaleElementReferenceException, s)
  | 1%nat => (Return (VBool true), s)
  | 2%nat => (Return (VBool false), s)
  | 3%nat => (Return (VBool true), s)
  | _ => (Raise (DriverError 1), s)
  end.

Definition is_readonly (s : St) : outcome value * St :=
  (Return (VBool (match element s with Some 3%nat => true | _ => false end)), s).

Definition find (s : St) : outcome (option nat) * St :=
  (Return (match ext s with O => None | n => Some n end), s).

Definition ok (s : St) : outcome unit * St := (Return tt, s).

Definition never (s : St) : outcome unit * St := (Raise TimeoutError, s).

(** One evaluation of what is waited for; a falsy answer is a timeout. *)
Definition poll (w : waited) (s : St) : outcome unit * St :=
  match w with
  | Obj v => if truthy v then (Return tt, s) else (Raise TimeoutError, s)
  | Fn f =>
      match f s with
      | (Return v, s1, _) =>
          if truthy v then (Return tt, s1) else (Raise TimeoutError, s1)
      | (Raise e, s1, _) => (Raise e, s1)
      end
  end.

(** The collaborators of an element whose owning scope answers
    [wait_for_exists] by [scope_wait]. *)
Definition page_with (scope_wait : St -> outcome unit * St)
  : Collaborators nat timer nat := {|
  locked := fun t : timer => if snd t then VBool true else VNone;
  Timer_new := fun timeout (s : St) =>
                 (Some (Z.of_nat (ext s) + timeout), false);
  Timer_reset := fun t : timer => (None, snd t);
  wd_enabled := probe;
  readonly := Some is_readonly;
  scope_is_iframe := false;
  scope_is_browser := true;
  scope_selector_string := fun _ : St => "browser";
  scope_switch_to := ok;
  scope_assert_exists := ok;
  scope_wait_for_exists := scope_wait;
  scope_wait_for_present := ok;
  locator_locate := find;
  wait_until := poll;
  class_name := "Element";
  format_dict _ := "{'id': 'a'}"
|}.

Definition page : Collaborators nat timer nat := page_with ok.


(** An element built from [{'id': 'a'}], holding the handle [h], on a page
    that offers the handle [page_handle]; relaxed locating as given, default
    timeout [timeout], the shared timer [t]. *)
Definition world (h : option nat) (page_handle : nat) (relaxed : bool)
    (timeout : Z) (t : timer) : St :=
  mkState h [(VStr "id", VStr "a")] None relaxed timeout t [] page_handle.

Definition idle : timer := (None, false).

(** A click that finds its node gone unless it holds handle [1]; the page
    then settles and offers handle [1]. [refresh] is an existence check that
    takes the handle the page offers. *)
Definition click (s : St) : outcome value * St :=
  match element s with
  | Some 1%nat => (Return VNone, s)
  | _ =>
      (Raise StaleElementReferenceException,
       mkState (element s) (selector s) (keyword s) (relaxed_locate s)
               (default_timeout s) (Wait_timer s) (warnings s) 1%nat)
  end.

Definition refresh (s : St) : outcome unit * St :=
  (Return tt, set_element (Some (ext s)) s).

End Demo.

(** ** Further methods of Element *)

Module More.
Import Elem.

(** [str.lower()] and [str.replace('_', '-')] on strings of ASCII
    characters. *)
Definition lower_char (c : ascii) : ascii :=
  let n := nat_of_ascii c in
  if (Nat.leb 65 n && Nat.leb n 90)%bool then ascii_of_nat (n + 32) else c.

Fixpoint lower (s : string) : string :=
  match s with
  | EmptyString => EmptyString
  | String c rest => String (lower_char c) (lower rest)
  end.



Fixpoint dashed (s : string) : string :=
  match s with
  | EmptyString => EmptyString
  | String c rest =>
      String (if Ascii.eqb c "_" then "-"%char else c) (dashed rest)
  end.

Fixpoint has_underscore (s : string) : bool :=
  match s with
  | EmptyString => false
  | String c rest => Ascii.eqb c "_" || has_underscore rest
  end.

(** [sub(r'^on', '', name)]: the pattern is anchored, it matches at most
    once, at the start. *)
Definition strip_on (name : string) : string :=
  match name with
  | String "o" (String "n" rest) => rest
  | _ => name
  end.

(** The event name [fire_event] hands to the atom:
    [sub(r'^on', '', str(event_name)).lower()]. *)
Definition event_name_of (name : string) : string := lower (strip_on name).

(** [type(x).__name__] in the message of a call to a non-callable. *)
Definition type_of (v : value) : string :=
  match v with
  | VNone => "NoneType"
  | VBool _ => "bool"
  | VInt _ => "int"
  | VStr _ => "str"
  | VPattern _ => "_sre.SRE_Pattern"
  end.

Section Model.

Context {handle Timer Ext : Type} {C : Collaborators handle Timer Ext}.

Abbreviation State := (State handle Timer Ext).
Abbreviation M := (M handle Timer Ext).

(** Further wire calls of the driver, on a handle: [handle.displayed],
    [handle.get_attribute(name)], [handle.text], [handle.tag_name]; the
    atom behind [fire_event]; and the test
    [search(SelectorBuilder.WILDCARD_ATTRIBUTE, item)], whose pattern is
    declared in the selector builder. They are recorded under [EvMethod]. *)
Variable wd_displayed : handle -> State -> outcome value * State.
Variable wd_get_attribute : string -> handle -> State -> outcome value * State.
Variable wd_text : handle -> State -> outcome value * State.
Variable wd_tag_name : handle -> State -> outcome value * State.
Variable fire_event_atom :
  string -> option handle -> State -> outcome value * State.
Variable wildcard_attribute : string -> bool.

Notation "x <- c ;; k" := (bind c (fun x => k))
  (at level 61, c at next level, right associativity).
Notation "c ;;; k" := (bind c (fun _ => k))
  (at level 61, right associativity).

(** An attribute read on [self.element], which may be [None]. *)
Definition on_element {A} (attr : string)
    (f : handle -> State -> outcome A * State) : M A :=
  e <- gets element ;;
  match e with
  | Some h => call EvMethod (f h)
  | None =>
      raise (AttributeError
               ("'NoneType' object has no attribute '" ++ attr ++ "'"))
  end.

(** [Element.wd] *)
Definition wd : M (option handle) :=
  assert_exists ;;; gets element.

(** [Element.visible] *)
Definition visible : M value :=
  _element_call (on_element "displayed" wd_displayed) (Some assert_exists).

(** [Element.present] *)
Definition present : M value :=
  try_except visible
    (fun e => match e with
              | UnknownObjectException _ => Some (ret (VBool false))
              | _ => None
              end).

(** [Element.attribute_value] *)
Definition attribute_value (attribute_name : string) : M value :=
  _element_call
    (on_element "get_attribute" (wd_get_attribute attribute_name)) None.

(** [Element.value] *)
Definition value_ : M value :=
  try_except
    (v <- attribute_value "value" ;;
     ret (if truthy v then v else VStr EmptyString))
    (fun e => match e with
              | InvalidElementStateException => Some (ret (VStr EmptyString))
              | _ => None
              end).

(** [Element._is_attribute] *)
Definition _is_attribute (attribute_name : string) : M bool :=
  v <- attribute_value attribute_name ;; ret (negb (is_None v)).

(** Calling an object that is not callable. *)
Definition call_object {A} (v : value) : M A :=
  raise (TypeError ("'" ++ type_of v ++ "' object is not callable")).

(** [Element.text]: [self.element.text] is read first, and what it returns
    is handed to [_element_call] as the action. *)
Definition text : M value :=
  v <- on_element "text" wd_text ;;
  _element_call (call_object v) None.

(** [Element.tag_name]: [self.element.tag_name] is read first, and the
    [lower] method of that string is the action. *)
Definition tag_name : M value :=
  v <- on_element "tag_name" wd_tag_name ;;
  match v with
  | VStr t => _element_call (ret (VStr (lower t))) None
  | _ =>
      raise (AttributeError
               ("'" ++ type_of v ++ "' object has no attribute 'lower'"))
  end.

(** [Element.fire_event] *)
Definition fire_event (event_name : string) : M unit :=
  let event_name := event_name_of event_name in
  _element_call
    (e <- gets element ;; call EvMethod (fire_event_atom event_name e)) None
  ;;; ret tt.

(** [Element.__getattr__]; [repr] of the name is the name in quotes. *)
Definition __getattr__ (item : string) : M value :=
  if wildcard_attribute item then attribute_value (dashed item)
  else
    raise (AttributeError
             ("'" ++ item ++ "' is not a valid attribute for "
                  ++ class_name ++ "!")).

(** [e.reset()] followed by [e.assert_exists()]. *)
Definition reset_then_assert : M unit := reset ;;; assert_exists.

(** Two calls of [assert_exists] in a row. *)
Definition assert_twice : M unit := assert_exists ;;; assert_exists.

(** Every call in the traces of [c] satisfies [P]. *)
Definition emits {A} (P : event -> bool) (c : M A) : Prop :=
  forall s, forallb P (trace_of (c s)) = true.

(** A computation makes the call [ev] at most [n] times. *)
Definition at_most {A} (ev : event) (n : nat) (c : M A) : Prop :=
  forall s, (occurrences ev (trace_of (c s)) <= n)%nat.

End Model.

(** The calls that wait: polling, waiting for the owning scope, warning. *)
Definition waits (ev : event) : bool :=
  match ev with
  | EvWaitUntil | EvScopeWaitForExists | EvScopeWaitForPresent | EvWarn => true
  | _ => false
  end.

(** The calls [assert_exists] can make. *)
Definition resolving (ev : event) : bool :=
  match ev with
  | EvProbe | EvScopeSwitchTo | EvScopeAssertExists | EvLocate => true
  | _ => false
  end.

Definition timer_event (ev : event) : bool :=
  match ev with
  | EvTimerInstall | EvTimerReset => true
  | _ => false
  end.

End More.

(** Wire calls on the small page: a node is displayed when enabled; the
    attribute [value] of handle [1] is [abc], of handle [3] empty, and the
    field of handle [2] is in a state that does not allow the read. *)

Module DemoMore.
Import Elem Demo.

Definition shown (h : nat) (s : St) : outcome value * St := probe h s.

Definition attribute (name : string) (h : nat) (s : St) : outcome value * St :=
  match h with
  | 0%nat => (Raise StaleElementReferenceException, s)
  | 1%nat => (Return (VStr "abc"), s)
  | 2%nat => (Raise InvalidElementStateException, s)
  | 3%nat => (Return VNone, s)
  | _ => (Raise (DriverError 1), s)
  end.

Definition label (h : nat) (s : St) : outcome value * St :=
  match h with
  | 0%nat => (Raise StaleElementReferenceException, s)
  | _ => (Return (VStr "INPUT"), s)
  end.

Definition atom (name : string) (h : option nat) (s : St)
  : outcome value * St :=
  (Return (VStr name), s).

Definition data_or_aria (item : string) : bool :=
  (String.prefix "data_" item || String.prefix "aria_" item)%bool.

(** The owning frame is gone: its [assert_exists] raises. *)
Definition frame_gone (s : St) : outcome unit * St :=
  (Raise (UnknownFrameException "no frame"), s).

Definition framed_page : Collaborators nat timer nat := {|
  locked := fun t : timer => if snd t then VBool true else VNone;
  Timer_new := fun timeout (s : St) =>
                 (Some (Z.of_nat (ext s) + timeout), false);
  Timer_reset := fun t : timer => (None, snd t);
  wd_enabled := probe;
  readonly := None;
  scope_is_iframe := false;
  scope_is_browser := false;
  scope_selector_string := fun _ : St => "{'id': 'f'}";
  scope_switch_to := ok;
  scope_assert_exists := frame_gone;
  scope_wait_for_exists := frame_gone;
  scope_wait_for_present := ok;
  locator_locate := find;
  wait_until := poll;
  class_name := "Element";
  format_dict := fun _ => "{'id': 'a'}"
|}.

(** A page whose owning scope never becomes present. *)
Definition hidden_page : Collaborators nat timer nat := {|
  locked := fun t : timer => if snd t then VBool true else VNone;
  Timer_new := fun timeout (s : St) =>
                 (Some (Z.of_nat (ext s) + timeout), false);
  Timer_reset := fun t : timer => (None, snd t);
  wd_enabled := probe;
  readonly := Some is_readonly;
  scope_is_iframe := false;
  scope_is_browser := true;
  scope_selector_string := fun _ : St => "browser";
  scope_switch_to := ok;
  scope_assert_exists := ok;
  scope_wait_for_exists := ok;
  scope_wait_for_present := never;
  locator_locate := find;
  wait_until := poll;
  class_name := "Element";
  format_dict := fun _ => "{'id': 'a'}"
|}.


(** An existence check that meets a page in the middle of a reload: it
    raises staleness while the page offers nothing, and the page then offers
    handle [1]; otherwise it takes the handle the page offers. *)
Definition recheck (s : St) : outcome unit * St :=
  match ext s with
  | O =>
      (Raise StaleElementReferenceException,
       mkState (element s) (selector s) (keyword s) (relaxed_locate s)
               (default_timeout s) (Wait_timer s) (warnings s) 1%nat)
  | n => (Return tt, set_element (Some n) s)
  end.

(** An element built from a native handle alone: no selector. *)
Definition bare (h : nat) (relaxed : bool) : St :=
  mkState (Some h) [] None relaxed 5 idle [] h.

End DemoMore.

(** * Properties *)

(** ** Dicts *)

Lemma pop_get name d : fst (pop name d) = get name d.
Proof.
  induction d as [|[k v] rest IH]; simpl; [reflexivity|].
  destruct (key_is name k); [reflexivity|].
  destruct (pop name rest) as [r rest']; simpl in *; exact IH.
Qed.

Lemma get_absent name d :
  existsb (key_is name) (keys d) = false -> get name d = VNone.
Proof.
  induction d as [|[k v] rest IH]; simpl; [reflexivity|].
  destruct (key_is name k); simpl; [discriminate|exact IH].
Qed.

Lemma pop_removes name d :
  unique_key name d = true -> get name (snd (pop name d)) = VNone.
Proof.
  induction d as [|[k v] rest IH]; simpl; [reflexivity|].
  destruct (key_is name k) eqn:Hk; simpl.
  - intros H. apply get_absent. now apply negb_true_iff in H.
  - intros H. destruct (pop name rest) as [r rest'] eqn:Hp; simpl in *.
    rewrite Hk. now apply IH.
Qed.

(** ** The row selector builder *)

Module RowProps.
Import Row.

(** The builder answers [None] exactly when a key of the dict is a compiled
    regular expression: iterating a dict yields its keys. *)
Lemma none_iff_pattern_key scope attr sel :
  fst (_build_wd_selector scope attr sel) = Return None
  <-> existsb is_pattern (keys sel) = true.
Proof.
  unfold _build_wd_selector.
  destruct (existsb is_pattern (keys sel)); simpl.
  - split; reflexivity.
  - destruct (pop "tag_name" sel) as [tag sel'].
    destruct (truthy tag); simpl; [|split; discriminate].
    destruct scope as [scope_tag|e]; [|split; discriminate].
    destruct (attr sel') as [attr_expr|e]; split; discriminate.
Qed.

Lemma build_without_pattern_key scope attr sel :
  existsb is_pattern (keys sel) = false ->
  _build_wd_selector scope attr sel =
    let sel' := snd (pop "tag_name" sel) in
    if truthy (get "tag_name" sel)
    then (row_result scope (attr sel'), sel')
    else (Raise (Error "internal error: no tag_name?!"), sel').
Proof.
  intros Hk. unfold _build_wd_selector, row_result, row_xpath. rewrite Hk.
  rewrite <- pop_get.
  destruct (pop "tag_name" sel) as [tag sel']; cbn [fst snd].
  destruct (truthy tag); cbn [negb]; [|reflexivity].
  destruct scope as [scope_tag|e]; [|reflexivity].
  destruct (attr sel') as [attr_expr|e]; [|reflexivity].
  destruct (existsb (String.eqb scope_tag) ["tbody"; "tfoot"; "thead"]);
    destruct (non_empty attr_expr); reflexivity.
Qed.

Lemma string_keys_hold_no_pattern (sel : selector_mapping) :
  existsb is_pattern (keys (as_dict sel)) = false.
Proof. induction sel as [|[k v] rest IH]; [reflexivity|exact IH]. Qed.

(** C7, at the input [{'tag_name': 'tr', 'id': re.compile('foo')}]: a
    constraint whose value is a compiled regular expression does not make
    the builder answer [None]. The test for a regular expression runs over
    the keys of the dict, so the builder goes on, reads the tag of the scope
    and hands the regular expression to the XPath builder: it returns a
    structural query, or raises what one of the two raises. *)
Theorem regex_value_is_compiled scope attr :
  _build_wd_selector scope attr regex_selector =
    (row_result scope (attr [(VStr "id", VPattern "foo")]),
     [(VStr "id", VPattern "foo")])
  /\ existsb is_pattern (values regex_selector) = true
  /\ fst (_build_wd_selector scope attr regex_selector) <> Return None.
Proof.
  split; [|split].
  - now rewrite build_without_pattern_key.
  - reflexivity.
  - rewrite none_iff_pattern_key. discriminate.
Qed.

(** C8: for every selector mapping (its keys are attribute names, whatever
    its values are), a call without a truthy ['tag_name'] entry raises the
    internal-consistency [Error]; with one, the entry is removed from the
    dict first, and the dict without it is the one whose constraints are
    compiled: the result is the query built from it, or the exception that
    reading the scope's tag or the XPath builder raises. *)
Theorem tag_name_is_required scope attr (sel : selector_mapping) :
  let d := as_dict sel in
  let d' := snd (pop "tag_name" d) in
  (truthy (get "tag_name" d) = false ->
   _build_wd_selector scope attr d
   = (Raise (Error "internal error: no tag_name?!"), d'))
  /\ (truthy (get "tag_name" d) = true ->
      _build_wd_selector scope attr d = (row_result scope (attr d'), d'))
  /\ (unique_key "tag_name" d = true -> get "tag_name" d' = VNone).
Proof.
  intros d d'. subst d d'.
  pose proof (build_without_pattern_key scope attr (as_dict sel)
                (string_keys_hold_no_pattern sel)) as H.
  cbv zeta in H. split; [|split].
  - intros Ht. now rewrite H, Ht.
  - intros Ht. now rewrite H, Ht.
  - apply pop_removes.
Qed.

Lemma tag_name_is_required_witness :
  _build_wd_selector (Return "table") (fun _ => Return "@id='a'")
      [(VStr "tag_name", VStr "tr"); (VStr "id", VStr "a")]
    = (Return (Some ["xpath";
         "./tr[@id='a'] | ./body/tr[@id='a'] | ./thead/tr[@id='a'] | ./tfoot/tr[@id='a']"]),
       [(VStr "id", VStr "a")])
  /\ _build_wd_selector (Return "table") (fun _ => Return "@id='a'")
       [(VStr "id", VPattern "a")]
    = (Raise (Error "internal error: no tag_name?!"), [(VStr "id", VPattern "a")])
  /\ get "tag_name" [(VStr "id", VStr "a")] = VNone.
Proof.
  split; [|split].
  - exact (proj1 (proj2 (tag_name_is_required (Return "table")
                           (fun _ => Return "@id='a'")
                           [("tag_name", VStr "tr"); ("id", VStr "a")]))
             eq_refl).
  - exact (proj1 (tag_name_is_required (Return "table")
                    (fun _ => Return "@id='a'") [("id", VPattern "a")])
             eq_refl).
  - exact (proj2 (proj2 (tag_name_is_required (Return "table")
                           (fun _ => Return "@id='a'")
                           [("tag_name", VStr "tr"); ("id", VStr "a")]))
             eq_refl).
Defined.

End RowProps.

(** ** The index wrapper *)

Module IndexProps.
Import Index.

(** C9: [index=0] leaves the expression as it is; [index=k], [k>0], wraps it
    with the position [k+1]; [index=-1] with [last()]; [index=-k], [k>1],
    with [last()-(k-1)]; a value that is not an integer raises [TypeError]
    and yields no query. *)
Theorem index_wrapper (xpath : string) :
  add_index xpath (VInt 0) = Return xpath
  /\ (forall k, 0 < k ->
        add_index xpath (VInt k) =
          Return ("(" ++ xpath ++ ")[" ++ dec (k + 1) ++ "]"))
  /\ add_index xpath (VInt (-1)) = Return ("(" ++ xpath ++ ")[last()]")
  /\ (forall k, 1 < k ->
        add_index xpath (VInt (- k)) =
          Return ("(" ++ xpath ++ ")[last()-" ++ dec (k - 1) ++ "]"))
  /\ (forall v, is_int v = false ->
        exists msg, add_index xpath v = Raise (TypeError msg)).
Proof.
  repeat split.
  - intros k Hk. unfold add_index.
    destruct (Z.eqb_spec k 0); [lia|].
    destruct (Z.ltb_spec 0 k); [reflexivity|lia].
  - intros k Hk. unfold add_index.
    destruct (Z.eqb_spec (- k) 0); [lia|].
    destruct (Z.ltb_spec 0 (- k)); [lia|].
    destruct (Z.eqb_spec (- k) (-1)); [lia|].
    replace (Z.abs (- k) - 1) with (k - 1) by lia. reflexivity.
  - intros v Hv. destruct v; try discriminate; simpl; eexists; reflexivity.
Qed.

(** The expectations of the index tests of [text_tests.py], on the base
    expression [X]. *)
Lemma index_wrapper_witness :
  add_index "X" (VInt 4) = Return "(X)[5]"
  /\ add_index "X" (VInt (-3)) = Return "(X)[last()-2]"
  /\ add_index "X" (VInt (-1)) = Return "(X)[last()]"
  /\ add_index "X" (VInt 0) = Return "X"
  /\ add_index "X" (VStr "foo") =
       Raise (TypeError "expected one of [<class 'int'>], got 'foo':<class 'str'>").
Proof.
  destruct (index_wrapper "X") as (H0 & Hpos & Hlast & Hneg & Hty).
  split; [exact (Hpos 4 eq_refl)|].
  split; [exact (Hneg 3 eq_refl)|].
  split; [exact Hlast|].
  split; [exact H0|].
  reflexivity.
Defined.

End IndexProps.

(** ** The Element orchestration *)

Module ElemProps.
Import Elem.
Local Open Scope nat_scope.

Section Orchestration.

Context {handle Timer Ext : Type} {C : Collaborators handle Timer Ext}.

Abbreviation State := (State handle Timer Ext).
Abbreviation M := (M handle Timer Ext).

(** *** Running the monad *)

Lemma bind_return {A B} (c : M A) (k : A -> M B) s a s1 t1 :
  c s = (Return a, s1, t1) ->
  bind c k s = (let '(r, s2, t2) := k a s1 in (r, s2, t1 ++ t2)%list).
Proof. intros H. unfold bind. now rewrite H. Qed.

Lemma bind_raise {A B} (c : M A) (k : A -> M B) s e s1 t1 :
  c s = (Raise e, s1, t1) -> bind c k s = (Raise e, s1, t1).
Proof. intros H. unfold bind. now rewrite H. Qed.

Lemma bind_gets {A B} (f : State -> A) (k : A -> M B) s :
  bind (gets f) k s = k (f s) s.
Proof. unfold bind, gets. now destruct (k (f s) s) as [[r s2] t2]. Qed.

Lemma call_run {A} ev (f : State -> outcome A * State) s :
  call ev f s = (fst (f s), snd (f s), [ev]).
Proof. unfold call. now destruct (f s). Qed.

(** *** Staleness *)

Lemma stale_unused s :
  element s = None ->
  stale s = (Raise (Error "Can not check staleness of unused element"), s, []).
Proof.
  intros H. unfold stale, try_except, bind, gets, raise. now rewrite H.
Qed.

Lemma stale_cached s h :
  element s = Some h ->
  stale s =
    match wd_enabled h s with
    | (Return _, s1) => (Return false, s1, [EvProbe])
    | (Raise StaleElementReferenceException, s1) => (Return true, s1, [EvProbe])
    | (Raise e, s1) => (Raise e, s1, [EvProbe])
    end.
Proof.
  intros H. unfold stale, try_except, bind, gets, call, ret. rewrite H.
  destruct (wd_enabled h s) as [[v|e] s1]; [reflexivity|].
  destruct e; reflexivity.
Qed.

Lemma stale_trace s b s1 t :
  stale s = (Return b, s1, t) -> t = [EvProbe].
Proof.
  destruct (element s) as [h|] eqn:He.
  - rewrite (stale_cached _ _ He).
    destruct (wd_enabled h s) as [[v|e] s2]; [congruence|].
    destruct e; congruence.
  - rewrite (stale_unused _ He). discriminate.
Qed.

Lemma stale_trace_any s :
  trace_of (stale s) = [EvProbe] \/ trace_of (stale s) = [].
Proof.
  destruct (element s) as [h|] eqn:He.
  - left. rewrite (stale_cached _ _ He).
    destruct (wd_enabled h s) as [[v|e] s1]; [reflexivity|].
    destruct e; reflexivity.
  - right. now rewrite (stale_unused _ He).
Qed.


(** *** Resolution *)

Lemma resolve_run s :
  resolve s =
    match locate s with
    | (Return None, s1, t1) =>
        (Raise (UnknownObjectException
                  ("unable to locate element: " ++ repr (set_element None s1))),
         set_element None s1, t1)
    | (Return (Some h), s1, t1) => (Return tt, set_element (Some h) s1, t1)
    | (Raise e, s1, t1) => (Raise e, s1, t1)
    end.
Proof.
  unfold resolve, bind, modify, assert_element_found, gets, raise, ret.
  destruct (locate s) as [[[o|e] s1] t1]; [|reflexivity].
  destruct o; cbn; now rewrite ?app_nil_r.
Qed.

Lemma locate_trace s :
  occurrences EvLocate (trace_of (locate s)) <= 1
  /\ occurrences EvWaitUntil (trace_of (locate s)) = 0
  /\ occurrences EvScopeWaitForExists (trace_of (locate s)) = 0.
Proof.
  unfold locate, _ensure_context, bind, call.
  destruct scope_is_iframe.
  - destruct (scope_switch_to s) as [[u|e] s1]; cbn; [|lia].
    destruct (locator_locate s1); cbn; lia.
  - destruct (scope_assert_exists s) as [[u|e] s1]; cbn; [|lia].
    destruct (locator_locate s1); cbn; lia.
Qed.

Lemma resolve_trace s :
  occurrences EvLocate (trace_of (resolve s)) <= 1
  /\ occurrences EvWaitUntil (trace_of (resolve s)) = 0
  /\ occurrences EvScopeWaitForExists (trace_of (resolve s)) = 0.
Proof.
  rewrite resolve_run. pose proof (locate_trace s) as H.
  destruct (locate s) as [[[o|e] s1] t1]; [destruct o|]; exact H.
Qed.

Lemma assert_exists_unresolved s :
  element s = None -> assert_exists s = resolve s.
Proof.
  intros H. unfold assert_exists. rewrite !bind_gets, H. reflexivity.
Qed.

Lemma assert_exists_cached s h k v rest :
  element s = Some h -> selector s = (k, v) :: rest ->
  assert_exists s =
    match stale s with
    | (Return true, s1, t1) =>
        let '(r, s2, t2) := resolve s1 in (r, s2, (t1 ++ t2)%list)
    | (Return false, s1, t1) => (Return tt, s1, t1)
    | (Raise e, s1, t1) => (Raise e, s1, t1)
    end.
Proof.
  intros He Hs. unfold assert_exists. rewrite !bind_gets, He, Hs.
  unfold bind at 1.
  destruct (stale s) as [[[b|e] s1] t1]; [|reflexivity].
  destruct b; [reflexivity|]. cbn. now rewrite app_nil_r.
Qed.

Lemma occurrences_app ev (a b : list event) :
  occurrences ev (a ++ b) = occurrences ev a + occurrences ev b.
Proof. unfold occurrences. now rewrite filter_app, length_app. Qed.

Lemma assert_exists_bare s h :
  element s = Some h -> selector s = [] ->
  occurrences EvLocate (trace_of (assert_exists s)) = 0
  /\ occurrences EvWaitUntil (trace_of (assert_exists s)) = 0
  /\ occurrences EvScopeWaitForExists (trace_of (assert_exists s)) = 0.
Proof.
  intros He Hs. unfold assert_exists. rewrite !bind_gets, He, Hs.
  assert (Hctx : forall s0, trace_of (_ensure_context s0) = [EvScopeSwitchTo]
                            \/ trace_of (_ensure_context s0) = [EvScopeAssertExists]).
  { intros s0. unfold _ensure_context. destruct scope_is_iframe;
      rewrite call_run; auto. }
  pose proof stale_trace_any as Hst.
  assert (Hfound : forall s0, trace_of (assert_element_found s0) = []).
  { intros s0. unfold assert_element_found. rewrite bind_gets.
    destruct (element s0); [reflexivity|]. now rewrite bind_gets. }
  unfold bind, trace_of in *.
  specialize (Hctx s).
  destruct (_ensure_context s) as [[[u|e] s1] t1]; cbn [snd] in *.
  - specialize (Hst s1).
    destruct (stale s1) as [[[b|e] s2] t2]; cbn [snd] in *.
    + destruct b.
      * unfold reset, modify. specialize (Hfound (set_element None s2)).
        destruct (assert_element_found (set_element None s2)) as [[r s3] t3].
        cbn [snd] in *. subst t3.
        destruct Hctx as [-> | ->], Hst as [-> | ->]; cbn; auto.
      * unfold ret. specialize (Hfound s2).
        destruct (assert_element_found s2) as [[r s3] t3].
        cbn [snd] in *. subst t3.
        destruct Hctx as [-> | ->], Hst as [-> | ->]; cbn; auto.
    + destruct Hctx as [-> | ->], Hst as [-> | ->]; cbn; auto.
  - destruct Hctx as [-> | ->]; cbn; auto.
Qed.

(** Whatever state it starts from, [assert_exists] runs the locator at most
    once and never polls. *)
Lemma assert_exists_trace s :
  occurrences EvLocate (trace_of (assert_exists s)) <= 1
  /\ occurrences EvWaitUntil (trace_of (assert_exists s)) = 0
  /\ occurrences EvScopeWaitForExists (trace_of (assert_exists s)) = 0.
Proof.
  destruct (element s) as [h|] eqn:He.
  - destruct (selector s) as [|[k v] rest] eqn:Hs.
    + destruct (assert_exists_bare _ _ He Hs) as (H1 & H2 & H3).
      rewrite H1, H2, H3. auto.
    + rewrite (assert_exists_cached _ _ _ _ _ He Hs).
      pose proof (stale_trace_any s) as Ht.
      destruct (stale s) as [[[b|e] s1] t1]; unfold trace_of in *;
        cbn [snd] in Ht.
      * destruct b.
        -- pose proof (resolve_trace s1) as (H1 & H2 & H3).
           destruct (resolve s1) as [[r s2] t2]. unfold trace_of in *.
           cbn [snd] in *. rewrite !occurrences_app, H2, H3.
           destruct Ht as [-> | ->]; cbn; lia.
        -- destruct Ht as [-> | ->]; cbn; auto.
      * destruct Ht as [-> | ->]; cbn; auto.
  - rewrite (assert_exists_unresolved _ He). apply resolve_trace.
Qed.

Lemma exists_run s :
  exists_ s =
    match assert_exists s with
    | (Return _, s1, t1) => (Return true, s1, t1)
    | (Raise (UnknownObjectException _), s1, t1)
    | (Raise (UnknownFrameException _), s1, t1) => (Return false, s1, t1)
    | (Raise e, s1, t1) => (Raise e, s1, t1)
    end.
Proof.
  unfold exists_, try_except, bind, ret.
  destruct (assert_exists s) as [[[u|e] s1] t1]; cbn.
  - now rewrite app_nil_r.
  - destruct e; cbn; now rewrite ?app_nil_r.
Qed.

Lemma wait_for_exists_strict s :
  relaxed_locate s = false -> wait_for_exists s = assert_exists s.
Proof.
  intros H. unfold wait_for_exists. now rewrite bind_gets, H.
Qed.

(** The [try] block of the relaxed [wait_for_exists]. *)
Lemma wait_for_exists_relaxed s :
  relaxed_locate s = true ->
  wait_for_exists s =
    match exists_ s with
    | (Return true, s1, t1) => (Return tt, s1, t1)
    | (Return false, s1, t1) =>
        let '(r, s2, t2) :=
          try_except
            (bind (call EvScopeWaitForExists scope_wait_for_exists)
               (fun _ => bind exists_
                  (fun ex => call EvWaitUntil (wait_until (Obj (VBool ex))))))
            (on_locate_timeout exists_advice) s1 in
        (r, s2, (t1 ++ t2)%list)
    | (Raise e, s1, t1) => (Raise e, s1, t1)
    end.
Proof.
  intros H. unfold wait_for_exists. rewrite bind_gets, H. cbn [negb].
  unfold bind at 1. destruct (exists_ s) as [[[b|e] s1] t1]; [|reflexivity].
  destruct b; [|reflexivity]. cbn. now rewrite app_nil_r.
Qed.

Lemma scope_then_poll (s1 : State) :
  bind (call EvScopeWaitForExists scope_wait_for_exists)
    (fun _ => bind exists_
       (fun ex => call EvWaitUntil (wait_until (Obj (VBool ex))))) s1 =
    match scope_wait_for_exists s1 with
    | (Return _, s2) =>
        match exists_ s2 with
        | (Return ex, s3, t3) =>
            let (r, s4) := wait_until (Obj (VBool ex)) s3 in
            (r, s4, (EvScopeWaitForExists :: t3 ++ [EvWaitUntil])%list)
        | (Raise e, s3, t3) => (Raise e, s3, EvScopeWaitForExists :: t3)
        end
    | (Raise e, s2) => (Raise e, s2, [EvScopeWaitForExists])
    end.
Proof.
  unfold bind, call.
  destruct (scope_wait_for_exists s1) as [[u|e] s2]; [|reflexivity].
  destruct (exists_ s2) as [[[ex|e] s3] t3]; [|reflexivity].
  now destruct (wait_until (Obj (VBool ex)) s3) as [r s4].
Qed.

(** The [except TimeoutError] clause, run from state [s]. *)
Lemma on_locate_timeout_run advice s :
  exists k, on_locate_timeout advice TimeoutError = Some k
  /\ k s = (Raise (UnknownObjectException
                     (located_timeout_message (fst (after_timeout advice s)))),
            fst (after_timeout advice s), snd (after_timeout advice s)).
Proof.
  eexists. split; [reflexivity|].
  rewrite bind_gets. unfold after_timeout, bind, warn, ret, gets, raise.
  destruct (Z.eqb (default_timeout s) 0); reflexivity.
Qed.

(** C6: an element that holds a selector and a cached handle that is not
    stale is found to exist by the liveness probe alone. [assert_exists],
    [exists] and [wait_for_exists] (relaxed or not) all succeed, and the
    only call made is the probe: the locator is not run. *)
Theorem cached_handle_skips_locate s h s1 t :
  element s = Some h ->
  selector s <> [] ->
  stale s = (Return false, s1, t) ->
  assert_exists s = (Return tt, s1, t)
  /\ exists_ s = (Return true, s1, t)
  /\ wait_for_exists s = (Return tt, s1, t)
  /\ t = [EvProbe]
  /\ occurrences EvLocate t = 0.
Proof.
  intros He Hs Hst.
  assert (Ha : assert_exists s = (Return tt, s1, t)).
  { destruct (selector s) as [|[k v] rest] eqn:Hsel; [congruence|].
    now rewrite (assert_exists_cached _ _ _ _ _ He Hsel), Hst. }
  assert (Hx : exists_ s = (Return true, s1, t)) by now rewrite exists_run, Ha.
  pose proof (stale_trace _ _ _ _ Hst) as Ht.
  repeat split; auto.
  - destruct (relaxed_locate s) eqn:Hr.
    + now rewrite (wait_for_exists_relaxed _ Hr), Hx.
    + now rewrite (wait_for_exists_strict _ Hr).
  - now subst t.
Qed.

(** C4: with relaxed locating disabled, [wait_for_exists] is one
    [assert_exists]: the locator runs at most once, nothing is polled and the
    owning scope is not waited for; when the locator, run for an unresolved
    element or for one whose handle went stale, yields no element, the
    unknown-object failure is raised at once. *)
Theorem strict_wait_for_exists_resolves_once s :
  relaxed_locate s = false ->
  wait_for_exists s = assert_exists s
  /\ occurrences EvLocate (trace_of (wait_for_exists s)) <= 1
  /\ occurrences EvWaitUntil (trace_of (wait_for_exists s)) = 0
  /\ occurrences EvScopeWaitForExists (trace_of (wait_for_exists s)) = 0
  /\ (forall s1 t1,
        element s = None ->
        locate s = (Return None, s1, t1) ->
        wait_for_exists s =
          (Raise (UnknownObjectException
                    ("unable to locate element: " ++ repr (set_element None s1))),
           set_element None s1, t1))
  /\ (forall h s0 t0 s1 t1,
        element s = Some h -> selector s <> [] ->
        stale s = (Return true, s0, t0) ->
        locate s0 = (Return None, s1, t1) ->
        wait_for_exists s =
          (Raise (UnknownObjectException
                    ("unable to locate element: " ++ repr (set_element None s1))),
           set_element None s1, (t0 ++ t1)%list)).
Proof.
  intros Hr. rewrite (wait_for_exists_strict _ Hr).
  destruct (assert_exists_trace s) as (H1 & H2 & H3).
  repeat split; auto.
  - intros s1 t1 He Hl.
    now rewrite (assert_exists_unresolved _ He), resolve_run, Hl.
  - intros h s0 t0 s1 t1 He Hs Hst Hl.
    destruct (selector s) as [|[k v] rest] eqn:Hsel; [congruence|].
    now rewrite (assert_exists_cached _ _ _ _ _ He Hsel), Hst, resolve_run, Hl.
Qed.


(** *** The waits for a usable element *)




(** *** Calling an action *)

Lemma element_call_run {A} (m : M A) (ec : M unit) s :
  _element_call m (Some ec) s =
    let '(r, sb, tb) := attempt m ec (state_of (acquire_timer s)) in
    (r, state_of (release_timer sb),
     (trace_of (acquire_timer s) ++ tb ++ trace_of (release_timer sb))%list).
Proof.
  unfold _element_call, bind, try_finally, acquire_timer, release_timer,
    state_of, trace_of.
  destruct (is_None (locked (Wait_timer s))); cbn [fst snd];
    match goal with |- context [attempt m ec ?x] =>
      destruct (attempt m ec x) as [[r sb] tb] end;
    destruct (is_None (locked (Wait_timer sb))); reflexivity.
Qed.

(** One pass: the existence check, then the action. *)
Lemma pass_run {A} (m0 : State -> outcome A * State)
    (ec0 : State -> outcome unit * State) s :
  bind (call EvExistCheck ec0) (fun _ => call EvMethod m0) s =
    match ec0 s with
    | (Return _, s1) => let (r, s2) := m0 s1 in (r, s2, [EvExistCheck; EvMethod])
    | (Raise e, s1) => (Raise e, s1, [EvExistCheck])
    end.
Proof.
  unfold bind, call. destruct (ec0 s) as [[u|e] s1]; [|reflexivity].
  now destruct (m0 s1).
Qed.

Lemma attempt_run {A} (m0 : State -> outcome A * State)
    (ec0 : State -> outcome unit * State) s :
  let pass := bind (call EvExistCheck ec0) (fun _ => call EvMethod m0) in
  attempt (call EvMethod m0) (call EvExistCheck ec0) s =
    match pass s with
    | (Raise StaleElementReferenceException, s1, t1) =>
        let '(r, s2, t2) := pass s1 in (r, s2, (t1 ++ t2)%list)
    | res => res
    end.
Proof.
  intros pass. unfold attempt, try_except. fold pass.
  destruct (pass s) as [[[a|e] s1] t1]; [reflexivity|].
  destruct e; reflexivity.
Qed.

Lemma calls_framed (tb : list event) s sb :
  calls (trace_of (acquire_timer s) ++ tb ++ trace_of (release_timer sb))
  = calls tb
  /\ occurrences EvExistCheck
       (trace_of (acquire_timer s) ++ tb ++ trace_of (release_timer sb))
     = occurrences EvExistCheck tb
  /\ occurrences EvMethod
       (trace_of (acquire_timer s) ++ tb ++ trace_of (release_timer sb))
     = occurrences EvMethod tb.
Proof.
  unfold acquire_timer, release_timer, trace_of, calls.
  rewrite !occurrences_app, !filter_app.
  destruct (is_None (locked (Wait_timer s)));
    destruct (is_None (locked (Wait_timer sb))); cbn;
    rewrite ?app_nil_r; auto with arith.
Qed.

(** The six ways a call can go: the check fails; check and action run; the
    check is stale and then fails, or is followed by the action; the action
    is stale and the second check fails, or the second action runs. *)
Lemma attempt_shapes {A} (m0 : State -> outcome A * State)
    (ec0 : State -> outcome unit * State) s :
  In (trace_of (attempt (call EvMethod m0) (call EvExistCheck ec0) s))
     [[EvExistCheck];
      [EvExistCheck; EvMethod];
      [EvExistCheck; EvExistCheck];
      [EvExistCheck; EvExistCheck; EvMethod];
      [EvExistCheck; EvMethod; EvExistCheck];
      [EvExistCheck; EvMethod; EvExistCheck; EvMethod]].
Proof.
  rewrite attempt_run. cbv zeta. rewrite pass_run.
  assert (Hsecond : forall s1 t,
    let '(r, s2, t2) :=
      bind (call EvExistCheck ec0) (fun _ => call EvMethod m0) s1 in
    trace_of (r, s2, (t ++ t2)%list) = (t ++ [EvExistCheck])%list
    \/ trace_of (r, s2, (t ++ t2)%list)
       = (t ++ [EvExistCheck; EvMethod])%list).
  { intros s1 t. rewrite pass_run.
    destruct (ec0 s1) as [[u|e] s2]; [destruct (m0 s2)|]; cbn; auto. }
  destruct (ec0 s) as [[u|e] s1].
  - destruct (m0 s1) as [[a|e] s2]; [cbn; auto|].
    destruct e; try (cbn; now auto).
    specialize (Hsecond s2 [EvExistCheck; EvMethod]).
    destruct (bind (call EvExistCheck ec0) (fun _ => call EvMethod m0) s2)
      as [[r s3] t3].
    destruct Hsecond as [-> | ->]; cbn; auto 10.
  - destruct e; try (cbn; now auto).
    specialize (Hsecond s1 [EvExistCheck]).
    destruct (bind (call EvExistCheck ec0) (fun _ => call EvMethod m0) s1)
      as [[r s3] t3].
    destruct Hsecond as [-> | ->]; cbn; auto 10.
Qed.

Lemma element_call_run_any {A} (m : M A) (ec : option (M unit)) s :
  _element_call m ec s =
    let chk := match ec with Some f => f | None => wait_for_exists end in
    let '(r, sb, tb) := attempt m chk (state_of (acquire_timer s)) in
    (r, state_of (release_timer sb),
     (trace_of (acquire_timer s) ++ tb ++ trace_of (release_timer sb))%list).
Proof. destruct ec as [f|]; apply element_call_run. Qed.

(** C1: an action run through [_element_call], with the check given or with
    the default one ([wait_for_exists]), is preceded by the existence check.
    A failure of the check that is not staleness propagates and the action
    is not run; an outcome of the action that is not staleness is the
    outcome of the call. When the check or the action raises the driver's
    staleness exception, check and action are run once more and that second
    attempt decides, whatever it is, a second staleness failure included:
    there is no third attempt. Every case ends with the [finally] clause. *)
Theorem element_call_retries_once {A} (m : M A) (ec : option (M unit)) s :
  let chk := match ec with Some f => f | None => wait_for_exists end in
  let run := _element_call m ec s in
  let s0 := state_of (acquire_timer s) in
  let finish (r : outcome A) (sb : State) (tb : list event) :=
    (r, state_of (release_timer sb),
     (trace_of (acquire_timer s) ++ tb ++ trace_of (release_timer sb))%list) in
  let retry (s2 : State) (tp : list event) :=
    match chk s2 with
    | (Raise e, s3, t3) => finish (Raise e) s3 (tp ++ t3)%list
    | (Return _, s3, t3) =>
        let '(r, s4, t4) := m s3 in finish r s4 (tp ++ t3 ++ t4)%list
    end in
  (forall e s1 t1,
     chk s0 = (Raise e, s1, t1) -> e <> StaleElementReferenceException ->
     run = finish (Raise e) s1 t1)
  /\ (forall s1 t1 r s2 t2,
        chk s0 = (Return tt, s1, t1) -> m s1 = (r, s2, t2) ->
        r <> Raise StaleElementReferenceException ->
        run = finish r s2 (t1 ++ t2)%list)
  /\ (forall s1 t1 s2 t2,
        chk s0 = (Return tt, s1, t1) ->
        m s1 = (Raise StaleElementReferenceException, s2, t2) ->
        run = retry s2 (t1 ++ t2)%list)
  /\ (forall s1 t1,
        chk s0 = (Raise StaleElementReferenceException, s1, t1) ->
        run = retry s1 t1)
  /\ (forall m0 ec0,
        m = call EvMethod m0 -> ec = Some (call EvExistCheck ec0) ->
        (exists rest, calls (trace_of run) = EvExistCheck :: rest)
        /\ occurrences EvExistCheck (trace_of run) <= 2
        /\ occurrences EvMethod (trace_of run) <= 2).
Proof.
  intros chk run s0 finish retry.
  assert (Hrun : run =
            let '(r, sb, tb) := attempt m chk s0 in finish r sb tb)
    by apply element_call_run_any.
  assert (Hretry : forall s2 tp,
            (let '(r, s3, t3) := bind chk (fun _ => m) s2 in
             finish r s3 (tp ++ t3)%list) = retry s2 tp).
  { intros s2 tp. subst retry. unfold bind. cbv beta.
    destruct (chk s2) as [[[u|e] s3] t3]; [|reflexivity].
    destruct (m s3) as [[r s4] t4]. reflexivity. }
  split; [|split; [|split; [|split]]].
  - intros e s1 t1 Hc Hne. rewrite Hrun. unfold attempt, try_except, bind.
    rewrite Hc. destruct e; try reflexivity. congruence.
  - intros s1 t1 r s2 t2 Hc Hm Hne. rewrite Hrun.
    unfold attempt, try_except, bind. rewrite Hc, Hm.
    destruct r as [a|e]; [reflexivity|]. destruct e; try reflexivity.
    congruence.
  - intros s1 t1 s2 t2 Hc Hm. rewrite Hrun, <- Hretry.
    unfold attempt, try_except. unfold bind at 1. rewrite Hc, Hm.
    destruct (bind chk (fun _ => m) s2) as [[r s3] t3]. reflexivity.
  - intros s1 t1 Hc. rewrite Hrun, <- Hretry.
    unfold attempt, try_except. unfold bind at 1. rewrite Hc.
    destruct (bind chk (fun _ => m) s1) as [[r s3] t3]. reflexivity.
  - intros m0 ec0 -> ->. subst chk. rewrite Hrun. subst finish. cbv beta.
    pose proof (attempt_shapes m0 ec0 s0) as Hsh.
    destruct (attempt (call EvMethod m0) (call EvExistCheck ec0) s0)
      as [[r sb] tb].
    cbn [trace_of] in *.
    destruct (calls_framed tb s sb) as (Hc & He & Hm).
    rewrite Hc, He, Hm.
    repeat (destruct Hsh as [<- | Hsh];
            [cbn; split; [eexists; reflexivity|split; lia]|]).
    destruct Hsh.
Qed.

(** *** The shared deadline *)












End Orchestration.

(** *** Runs on the small page *)

Import Demo.



Lemma cached_handle_skips_locate_witness :
  @wait_for_exists _ _ _ page (world (Some 1) 1 true 5 idle)
    = (Return tt, world (Some 1) 1 true 5 idle, [EvProbe])
  /\ @assert_exists _ _ _ page (world (Some 1) 1 false 5 idle)
    = (Return tt, world (Some 1) 1 false 5 idle, [EvProbe]).
Proof.
  split.
  - refine (proj1 (proj2 (proj2
      (@cached_handle_skips_locate _ _ _ page (world (Some 1) 1 true 5 idle)
         1 _ _ eq_refl _ eq_refl)))).
    discriminate.
  - refine (proj1
      (@cached_handle_skips_locate _ _ _ page (world (Some 1) 1 false 5 idle)
         1 _ _ eq_refl _ eq_refl)).
    discriminate.
Defined.

Lemma strict_wait_for_exists_resolves_once_witness :
  @wait_for_exists _ _ _ page (world None 0 false 5 idle)
    = (Raise (UnknownObjectException
         "unable to locate element: #<#Element: located: False; {'id': 'a'}>"),
       world None 0 false 5 idle, [EvScopeAssertExists; EvLocate])
  /\ @wait_for_exists _ _ _ page (world (Some 0) 0 false 5 idle)
    = (Raise (UnknownObjectException
         "unable to locate element: #<#Element: located: False; {'id': 'a'}>"),
       world None 0 false 5 idle, [EvProbe; EvScopeAssertExists; EvLocate]).
Proof.
  split.
  - exact (proj1 (proj2 (proj2 (proj2 (proj2
      (@strict_wait_for_exists_resolves_once _ _ _ page
         (world None 0 false 5 idle) eq_refl)))))
      _ _ eq_refl eq_refl).
  - refine (proj2 (proj2 (proj2 (proj2 (proj2
      (@strict_wait_for_exists_resolves_once _ _ _ page
         (world (Some 0) 0 false 5 idle) eq_refl)))))
      0 _ _ _ _ eq_refl _ eq_refl eq_refl).
    discriminate.
Defined.



Lemma element_call_retries_once_witness :
  (let run := @_element_call _ _ _ page _ (call EvMethod click)
                (Some (call EvExistCheck refresh))
                (world (Some 0) 2 true 5 idle) in
   outcome_of run = Return VNone
   /\ trace_of run = [EvTimerInstall; EvExistCheck; EvMethod; EvExistCheck;
                      EvMethod; EvTimerReset])
  /\ (let run := @_element_call _ _ _ page _ (call EvMethod click) None
                   (world None 0 false 5 idle) in
      outcome_of run
      = Raise (UnknownObjectException
          "unable to locate element: #<#Element: located: False; {'id': 'a'}>")
      /\ trace_of run = [EvTimerInstall; EvScopeAssertExists; EvLocate;
                         EvTimerReset])
  /\ (let run := @_element_call _ _ _ page _ (call EvMethod click) None
                   (world (Some 1) 1 false 5 idle) in
      outcome_of run = Return VNone
      /\ trace_of run = [EvTimerInstall; EvProbe; EvMethod; EvTimerReset])
  /\ occurrences EvMethod
       (trace_of (@_element_call _ _ _ page _ (call EvMethod click)
                    (Some (call EvExistCheck refresh))
                    (world (Some 0) 2 true 5 idle))) <= 2.
Proof.
  split; [|split; [|split]].
  - pose proof (proj1 (proj2 (proj2
      (@element_call_retries_once _ _ _ page _ (call EvMethod click)
         (Some (call EvExistCheck refresh)) (world (Some 0) 2 true 5 idle))))
      _ _ _ _ eq_refl eq_refl) as H.
    exact (conj (f_equal outcome_of H) (f_equal trace_of H)).
  - assert (Hne : UnknownObjectException
        "unable to locate element: #<#Element: located: False; {'id': 'a'}>"
        <> StaleElementReferenceException) by discriminate.
    pose proof (proj1
      (@element_call_retries_once _ _ _ page _ (call EvMethod click) None
         (world None 0 false 5 idle))
      _ _ _ eq_refl Hne) as H.
    exact (conj (f_equal outcome_of H) (f_equal trace_of H)).
  - assert (Hne : @Return value VNone <> Raise StaleElementReferenceException)
      by discriminate.
    pose proof (proj1 (proj2
      (@element_call_retries_once _ _ _ page _ (call EvMethod click) None
         (world (Some 1) 1 false 5 idle)))
      _ _ _ _ _ eq_refl eq_refl Hne) as H.
    exact (conj (f_equal outcome_of H) (f_equal trace_of H)).
  - exact (proj2 (proj2 (proj2 (proj2 (proj2 (proj2
      (@element_call_retries_once _ _ _ page _ (call EvMethod click)
         (Some (call EvExistCheck refresh)) (world (Some 0) 2 true 5 idle)))))
      click refresh eq_refl eq_refl))).
Defined.






End ElemProps.

(** ** Further properties of the row selector builder *)

Module RowMore.
Import Row.

Lemma pop_is_filter name d :
  unique_key name d = true ->
  snd (pop name d) = filter (fun kv => negb (key_is name (fst kv))) d.
Proof.
  induction d as [|[k v] rest IH]; simpl; [reflexivity|].
  destruct (key_is name k) eqn:Hk; simpl.
  - intros H. apply negb_true_iff in H. clear IH.
    induction rest as [|[k' v'] rest IH]; simpl in *; [reflexivity|].
    apply orb_false_iff in H. destruct H as [H1 H2].
    rewrite H1. simpl. f_equal. now apply IH.
  - intros H. destruct (pop name rest) as [r rest'] eqn:Hp; simpl in *.
    f_equal. now apply IH.
Qed.

(** X1: whenever no key of the selector is a compiled regular expression,
    the dict the caller holds after the call - the one handed to the XPath
    builder - is the original one without its ['tag_name'] entry: every
    other constraint is kept, in the original order, whether the call
    returns a query or raises. *)
Theorem other_constraints_are_kept scope attr sel :
  existsb is_pattern (keys sel) = false ->
  unique_key "tag_name" sel = true ->
  snd (_build_wd_selector scope attr sel)
  = filter (fun kv => negb (key_is "tag_name" (fst kv))) sel.
Proof.
  intros Hk Hu. rewrite RowProps.build_without_pattern_key by exact Hk.
  cbv zeta. rewrite <- (pop_is_filter _ _ Hu).
  now destruct (truthy (get "tag_name" sel)).
Qed.

Lemma other_constraints_are_kept_witness :
  snd (_build_wd_selector (Return "table") (fun _ => Return "@id='a'")
         [(VStr "class", VStr "c"); (VStr "tag_name", VStr "tr");
          (VStr "id", VStr "a")])
  = [(VStr "class", VStr "c"); (VStr "id", VStr "a")].
Proof.
  exact (other_constraints_are_kept (Return "table")
           (fun _ => Return "@id='a'")
           [(VStr "class", VStr "c"); (VStr "tag_name", VStr "tr");
            (VStr "id", VStr "a")] eq_refl eq_refl).
Defined.

(** X2: the builder declines (returns [None]) exactly when a key of the
    dict is a compiled regular expression, and then the caller's dict is
    left as it was: ['tag_name'] is not consumed. *)
Theorem declining_leaves_selector_untouched scope attr sel :
  (fst (_build_wd_selector scope attr sel) = Return None
   <-> existsb is_pattern (keys sel) = true)
  /\ (fst (_build_wd_selector scope attr sel) = Return None ->
      snd (_build_wd_selector scope attr sel) = sel).
Proof.
  split; [apply RowProps.none_iff_pattern_key|].
  intros H. apply RowProps.none_iff_pattern_key in H.
  unfold _build_wd_selector. now rewrite H.
Qed.

Lemma declining_leaves_selector_untouched_witness :
  snd (_build_wd_selector (Return "table") (fun _ => Return EmptyString)
         [(VPattern "x", VStr "y"); (VStr "tag_name", VStr "tr")])
  = [(VPattern "x", VStr "y"); (VStr "tag_name", VStr "tr")].
Proof.
  exact (proj2 (declining_leaves_selector_untouched (Return "table")
                  (fun _ => Return EmptyString)
                  [(VPattern "x", VStr "y"); (VStr "tag_name", VStr "tr")])
           eq_refl).
Defined.

(** X3: for a selector with a truthy ['tag_name'] and no regular-expression
    key, the builder reads the tag of the scope and then compiles the
    remaining constraints; an exception of either read propagates, the first
    one first. When both succeed the answer is an XPath: the single path
    [./tr] when the scope is itself a [tbody], [tfoot] or [thead], and
    otherwise the union of [./tr], [./body/tr], [./thead/tr] and
    [./tfoot/tr]. Each alternative carries the predicate of the remaining
    constraints, and none when that predicate is empty. *)
Theorem row_query_alternatives scope attr sel :
  existsb is_pattern (keys sel) = false ->
  truthy (get "tag_name" sel) = true ->
  let rest := snd (pop "tag_name" sel) in
  (forall e, scope = Raise e ->
             _build_wd_selector scope attr sel = (Raise e, rest))
  /\ (forall scope_tag e,
        scope = Return scope_tag -> attr rest = Raise e ->
        _build_wd_selector scope attr sel = (Raise e, rest))
  /\ (forall scope_tag attr_expr,
        scope = Return scope_tag -> attr rest = Return attr_expr ->
        let wrap e := match attr_expr with
                      | EmptyString => e
                      | _ => e ++ "[" ++ attr_expr ++ "]"
                      end in
        _build_wd_selector scope attr sel =
          (Return (Some ["xpath";
             if existsb (String.eqb scope_tag) ["tbody"; "tfoot"; "thead"]
             then wrap "./tr"
             else wrap "./tr" ++ " | " ++ wrap "./body/tr" ++ " | "
                    ++ wrap "./thead/tr" ++ " | " ++ wrap "./tfoot/tr"]),
           rest)).
Proof.
  intros Hk Ht rest. rewrite RowProps.build_without_pattern_key by exact Hk.
  cbv zeta. rewrite Ht. fold rest. split; [|split].
  - intros e ->. reflexivity.
  - intros scope_tag e -> ->. reflexivity.
  - intros scope_tag attr_expr -> ->. unfold row_result, row_xpath.
    destruct (existsb (String.eqb scope_tag) ["tbody"; "tfoot"; "thead"]);
      destruct attr_expr; reflexivity.
Qed.

Lemma row_query_alternatives_witness :
  fst (_build_wd_selector (Return "tbody") (fun _ => Return "@id='a'")
         [(VStr "tag_name", VStr "tr"); (VStr "id", VStr "a")])
    = Return (Some ["xpath"; "./tr[@id='a']"])
  /\ fst (_build_wd_selector (Return "table") (fun _ => Return EmptyString)
            [(VStr "tag_name", VStr "tr")])
    = Return (Some ["xpath"; "./tr | ./body/tr | ./thead/tr | ./tfoot/tr"])
  /\ fst (_build_wd_selector
            (Raise (AttributeError "'function' object has no attribute 'lower'"))
            (fun _ => Return EmptyString) [(VStr "tag_name", VStr "tr")])
    = Raise (AttributeError "'function' object has no attribute 'lower'").
Proof.
  split; [|split].
  - exact (f_equal fst
      (proj2 (proj2 (row_query_alternatives (Return "tbody")
                       (fun _ => Return "@id='a'")
                       [(VStr "tag_name", VStr "tr"); (VStr "id", VStr "a")]
                       eq_refl eq_refl))
         _ _ eq_refl eq_refl)).
  - exact (f_equal fst
      (proj2 (proj2 (row_query_alternatives (Return "table")
                       (fun _ => Return EmptyString)
                       [(VStr "tag_name", VStr "tr")] eq_refl eq_refl))
         _ _ eq_refl eq_refl)).
  - exact (f_equal fst
      (proj1 (row_query_alternatives
                (Raise (AttributeError
                          "'function' object has no attribute 'lower'"))
                (fun _ => Return EmptyString)
                [(VStr "tag_name", VStr "tr")] eq_refl eq_refl)
         _ eq_refl)).
Defined.

End RowMore.

(** ** Further properties of Element *)

Module MoreProps.
Import Elem More ElemProps.
Local Open Scope nat_scope.

Section Methods.

Context {handle Timer Ext : Type} {C : Collaborators handle Timer Ext}.

Abbreviation State := (State handle Timer Ext).
Abbreviation M := (M handle Timer Ext).

(** *** Which calls a method makes *)

Lemma forallb_app_true {A} (P : A -> bool) (a b : list A) :
  forallb P a = true -> forallb P b = true -> forallb P (a ++ b) = true.
Proof. intros Ha Hb. rewrite forallb_app, Ha, Hb. reflexivity. Qed.

Lemma emits_ret {A} P (a : A) : emits P (ret a : M A).
Proof. intros s. reflexivity. Qed.

Lemma emits_raise {A} P e : emits P (raise e : M A).
Proof. intros s. reflexivity. Qed.

Lemma emits_gets {A} P (f : State -> A) : emits P (gets f).
Proof. intros s. reflexivity. Qed.

Lemma emits_modify P (f : State -> State) : emits P (modify f).
Proof. intros s. reflexivity. Qed.

Lemma emits_call {A} (P : event -> bool) ev (f : State -> outcome A * State) :
  P ev = true -> emits P (call ev f).
Proof. intros H s. rewrite call_run. cbn. now rewrite H. Qed.

Lemma emits_bind {A B} P (c : M A) (k : A -> M B) :
  emits P c -> (forall a, emits P (k a)) -> emits P (bind c k).
Proof.
  intros Hc Hk s. unfold bind. specialize (Hc s).
  destruct (c s) as [[[a|e] s1] t1]; cbn [trace_of] in *; [|exact Hc].
  specialize (Hk a s1). destruct (k a s1) as [[r s2] t2].
  cbn [trace_of] in *. now apply forallb_app_true.
Qed.

Lemma emits_try_except {A} P (c : M A) (h : exn -> option (M A)) :
  emits P c -> (forall e k, h e = Some k -> emits P k) ->
  emits P (try_except c h).
Proof.
  intros Hc Hh s. unfold try_except. specialize (Hc s).
  destruct (c s) as [[[a|e] s1] t1]; cbn [trace_of] in *; [exact Hc|].
  destruct (h e) as [k|] eqn:He; [|exact Hc].
  specialize (Hh e k He s1). destruct (k s1) as [[r s2] t2].
  cbn [trace_of] in *. now apply forallb_app_true.
Qed.

Lemma emits_try_finally {A} P (c : M A) (f : M unit) :
  emits P c -> emits P f -> emits P (try_finally c f).
Proof.
  intros Hc Hf s. unfold try_finally. specialize (Hc s).
  destruct (c s) as [[r s1] t1]. specialize (Hf s1).
  destruct (f s1) as [[[u|e] s2] t2]; cbn [trace_of] in *;
    now apply forallb_app_true.
Qed.

Lemma emits_stale P : P EvProbe = true -> emits P stale.
Proof.
  intros H. unfold stale. apply emits_try_except.
  - apply emits_bind; [apply emits_gets|]. intros [h|].
    + apply emits_bind; [now apply emits_call|]. intros _. apply emits_ret.
    + apply emits_raise.
  - intros e k Hk. destruct e; inversion Hk. apply emits_ret.
Qed.

Lemma emits_assert_element_found P : emits P assert_element_found.
Proof.
  unfold assert_element_found. apply emits_bind; [apply emits_gets|].
  intros [h|]; [apply emits_ret|].
  apply emits_bind; [apply emits_gets|]. intros me. apply emits_raise.
Qed.

Lemma emits_ensure_context P :
  P EvScopeSwitchTo = true -> P EvScopeAssertExists = true ->
  emits P _ensure_context.
Proof.
  intros H1 H2. unfold _ensure_context.
  destruct scope_is_iframe; now apply emits_call.
Qed.

Lemma emits_assert_exists P :
  (forall ev, resolving ev = true -> P ev = true) -> emits P assert_exists.
Proof.
  intros H.
  assert (Hres : emits P resolve).
  { unfold resolve, locate. apply emits_bind.
    - apply emits_bind; [apply emits_ensure_context; now apply H|].
      intros _. apply emits_call. now apply H.
    - intros h. apply emits_bind; [apply emits_modify|].
      intros _. apply emits_assert_element_found. }
  unfold assert_exists. apply emits_bind; [apply emits_gets|]. intros e.
  apply emits_bind; [apply emits_gets|]. intros sel.
  destruct e as [h|]; [destruct sel as [|kv rest]|]; [| |exact Hres].
  - apply emits_bind; [apply emits_ensure_context; now apply H|]. intros _.
    apply emits_bind; [apply emits_stale; now apply H|]. intros st.
    apply emits_bind; [destruct st; [apply emits_modify|apply emits_ret]|].
    intros _. apply emits_assert_element_found.
  - apply emits_bind; [apply emits_stale; now apply H|]. intros st.
    destruct st; [exact Hres|apply emits_ret].
Qed.

Lemma emits_exists P :
  (forall ev, resolving ev = true -> P ev = true) -> emits P exists_.
Proof.
  intros H. unfold exists_. apply emits_try_except.
  - apply emits_bind; [now apply emits_assert_exists|].
    intros _. apply emits_ret.
  - intros e k Hk. destruct e; inversion Hk; apply emits_ret.
Qed.

Lemma emits_element_call {A} P (m : M A) (ec : M unit) :
  P EvTimerInstall = true -> P EvTimerReset = true ->
  emits P m -> emits P ec -> emits P (_element_call m (Some ec)).
Proof.
  intros Hi Hr Hm Hec. unfold _element_call. apply emits_bind.
  - intros s. unfold acquire_timer.
    destruct (is_None (locked (Wait_timer s))); cbn; now rewrite ?Hi.
  - intros _. apply emits_try_finally.
    + unfold attempt. apply emits_try_except.
      * apply emits_bind; auto.
      * intros e k Hk. destruct e; inversion Hk.
        apply emits_bind; auto.
    + intros s. unfold release_timer.
      destruct (is_None (locked (Wait_timer s))); cbn; now rewrite ?Hr.
Qed.

(** *** Existence *)

Lemma assert_element_found_run (s : State) :
  assert_element_found s =
    match element s with
    | Some _ => (Return tt, s, [])
    | None =>
        (Raise (UnknownObjectException ("unable to locate element: " ++ repr s)),
         s, [])
    end.
Proof.
  unfold assert_element_found. rewrite bind_gets.
  destruct (element s); [reflexivity|]. now rewrite bind_gets.
Qed.

Lemma assert_exists_bare_run (s : State) h :
  element s = Some h -> selector s = [] ->
  assert_exists s =
    match _ensure_context s with
    | (Return _, s1, t1) =>
        match stale s1 with
        | (Return true, s2, t2) =>
            (Raise (UnknownObjectException
                      ("unable to locate element: "
                         ++ repr (set_element None s2))),
             set_element None s2, (t1 ++ t2)%list)
        | (Return false, s2, t2) =>
            match element s2 with
            | Some _ => (Return tt, s2, (t1 ++ t2)%list)
            | None =>
                (Raise (UnknownObjectException
                          ("unable to locate element: " ++ repr s2)),
                 s2, (t1 ++ t2)%list)
            end
        | (Raise e, s2, t2) => (Raise e, s2, (t1 ++ t2)%list)
        end
    | (Raise e, s1, t1) => (Raise e, s1, t1)
    end.
Proof.
  intros He Hs. unfold assert_exists. rewrite !bind_gets, He, Hs.
  unfold bind at 1.
  destruct (_ensure_context s) as [[[u|e] s1] t1]; [|reflexivity].
  unfold bind at 1.
  destruct (stale s1) as [[[b|e] s2] t2]; [|reflexivity].
  unfold bind. destruct b; unfold reset, modify, ret;
    rewrite assert_element_found_run.
  - cbn. now rewrite app_nil_r.
  - destruct (element s2); cbn; now rewrite app_nil_r.
Qed.

(** X4: [exists] never raises the not-found failures: when [assert_exists]
    raises [UnknownObjectException] or [UnknownFrameException] it answers
    [False], it answers [True] when [assert_exists] returns and only then,
    and it leaves the state and the calls of [assert_exists]. It never
    polls, never waits for the owning scope and never warns. *)
Theorem exists_never_raises_not_found (s : State) :
  (forall m, outcome_of (exists_ s) <> Raise (UnknownObjectException m))
  /\ (forall m, outcome_of (exists_ s) <> Raise (UnknownFrameException m))
  /\ (forall m s1 t1,
        assert_exists s = (Raise (UnknownObjectException m), s1, t1) ->
        exists_ s = (Return false, s1, t1))
  /\ (forall m s1 t1,
        assert_exists s = (Raise (UnknownFrameException m), s1, t1) ->
        exists_ s = (Return false, s1, t1))
  /\ (forall s1 t1,
        assert_exists s = (Return tt, s1, t1) ->
        exists_ s = (Return true, s1, t1))
  /\ (outcome_of (exists_ s) = Return true
      <-> outcome_of (assert_exists s) = Return tt)
  /\ state_of (exists_ s) = state_of (assert_exists s)
  /\ trace_of (exists_ s) = trace_of (assert_exists s)
  /\ forallb (fun ev => negb (waits ev)) (trace_of (exists_ s)) = true.
Proof.
  assert (Hw : forallb (fun ev => negb (waits ev)) (trace_of (exists_ s)) = true).
  { apply emits_exists. intros ev; destruct ev; cbn; congruence. }
  revert Hw. rewrite exists_run.
  destruct (assert_exists s) as [[[[]|e] s1] t1]; cbn.
  - intros Hw. repeat split; try discriminate; auto;
      intros; congruence.
  - destruct e; cbn; intros Hw; repeat split; try discriminate; auto;
      intros; congruence.
Qed.

(** X5: provided the driver's liveness probe does not touch [self.element],
    an [assert_exists] that returns leaves a handle cached, so [wd] never
    returns [None]. *)
Theorem wd_returns_a_handle :
  (forall h (s : State), element (snd (wd_enabled h s)) = element s) ->
  forall s : State,
    (outcome_of (assert_exists s) = Return tt ->
     element (state_of (assert_exists s)) <> None)
    /\ outcome_of (wd s) <> Return None.
Proof.
  intros Hframe s.
  assert (Hres : forall s0 : State,
            outcome_of (resolve s0) = Return tt ->
            element (state_of (resolve s0)) <> None).
  { intros s0. rewrite resolve_run.
    destruct (locate s0) as [[[[h|]|e] s1] t1]; cbn; congruence. }
  assert (Ha : outcome_of (assert_exists s) = Return tt ->
               element (state_of (assert_exists s)) <> None).
  { destruct (element s) as [h|] eqn:He.
    - destruct (selector s) as [|[k v] rest] eqn:Hs.
      + rewrite (assert_exists_bare_run _ _ He Hs).
        destruct (_ensure_context s) as [[[u|e] s1] t1]; [|discriminate].
        destruct (stale s1) as [[[[|]|e] s2] t2]; try discriminate.
        destruct (element s2) eqn:He2; cbn; congruence.
      + rewrite (assert_exists_cached _ _ _ _ _ He Hs).
        rewrite (stale_cached _ _ He). specialize (Hframe h s).
        destruct (wd_enabled h s) as [[v0|e] s1]; cbn [snd] in Hframe.
        * cbn. congruence.
        * specialize (Hres s1).
          destruct e; cbn; try discriminate.
          destruct (resolve s1) as [[r s2] t2]. cbn in *. exact Hres.
    - rewrite (assert_exists_unresolved _ He). apply Hres. }
  split; [exact Ha|].
  unfold wd, bind. destruct (assert_exists s) as [[[[]|e] s1] t1]; cbn in *.
  - intros H. injection H as H. apply Ha; auto.
  - discriminate.
Qed.

(** *** Waiting *)

Lemma present_then_poll (s1 : State) :
  bind (call EvScopeWaitForPresent scope_wait_for_present)
    (fun _ => bind exists_
       (fun ex => call EvWaitUntil (wait_until (Obj (VBool ex))))) s1 =
    match scope_wait_for_present s1 with
    | (Return _, s2) =>
        match exists_ s2 with
        | (Return ex, s3, t3) =>
            let (r, s4) := wait_until (Obj (VBool ex)) s3 in
            (r, s4, (EvScopeWaitForPresent :: t3 ++ [EvWaitUntil])%list)
        | (Raise e, s3, t3) => (Raise e, s3, EvScopeWaitForPresent :: t3)
        end
    | (Raise e, s2) => (Raise e, s2, [EvScopeWaitForPresent])
    end.
Proof.
  unfold bind, call.
  destruct (scope_wait_for_present s1) as [[u|e] s2]; [|reflexivity].
  destruct (exists_ s2) as [[[ex|e] s3] t3]; [|reflexivity].
  now destruct (wait_until (Obj (VBool ex)) s3) as [r s4].
Qed.

(** X6: in relaxed mode [wait_for_present] has no shortcut: its first call
    is always the owning scope's [wait_for_present], also for an element
    that already exists. A timeout of the scope becomes
    [UnknownObjectException], with the advice emitted unless the default
    timeout is zero; any other failure of the scope propagates as it is, and
    nothing more is called. *)
Theorem wait_for_present_asks_scope_first (s : State) :
  relaxed_locate s = true ->
  (exists t, trace_of (wait_for_present s) = EvScopeWaitForPresent :: t)
  /\ (forall s1,
        scope_wait_for_present s = (Raise TimeoutError, s1) ->
        wait_for_present s =
          (Raise (UnknownObjectException
                    (located_timeout_message
                       (fst (after_timeout present_advice s1)))),
           fst (after_timeout present_advice s1),
           (EvScopeWaitForPresent :: snd (after_timeout present_advice s1))))
  /\ (forall e s1,
        scope_wait_for_present s = (Raise e, s1) ->
        e <> TimeoutError ->
        wait_for_present s = (Raise e, s1, [EvScopeWaitForPresent])).
Proof.
  intros Hr. unfold wait_for_present. rewrite bind_gets, Hr. cbn [negb].
  unfold try_except. rewrite present_then_poll.
  destruct (scope_wait_for_present s) as [[u|e] s1].
  - split; [|split; intros; discriminate].
    destruct (exists_ s1) as [[[ex|e] s2] t2].
    + destruct (wait_until (Obj (VBool ex)) s2) as [[u'|e] s3].
      * eexists. reflexivity.
      * destruct (on_locate_timeout present_advice e) as [k|].
        -- destruct (k s3) as [[r4 s4] t4]. eexists. reflexivity.
        -- eexists. reflexivity.
    + destruct (on_locate_timeout present_advice e) as [k|].
      * destruct (k s2) as [[r4 s4] t4]. eexists. reflexivity.
      * eexists. reflexivity.
  - split; [|split].
    + destruct (on_locate_timeout present_advice e) as [k|].
      * destruct (k s1) as [[r4 s4] t4]. eexists. reflexivity.
      * eexists. reflexivity.
    + intros s1' H. inversion H. subst.
      destruct (on_locate_timeout_run present_advice s1') as (k & -> & ->).
      reflexivity.
    + intros e' s1' H Hne. inversion H. subst.
      destruct e'; try reflexivity. congruence.
Qed.

(** X7: with relaxed locating disabled, [wait_for_enabled] is one read of
    [enabled] and [wait_for_writable] adds one look at [readonly]: a falsy
    [enabled] raises [ObjectDisabledException] from both, before [readonly]
    is looked at; an enabled element whose [readonly] is truthy raises
    [ObjectReadOnlyException] from [wait_for_writable]. *)
Theorem strict_usable_checks (s : State) v s1 t :
  relaxed_locate s = false ->
  _element_call element_enabled None s = (Return v, s1, t) ->
  wait_for_enabled s =
    (if truthy v then (Return tt, s1, t)
     else (Raise (ObjectDisabledException ("object is disabled " ++ repr s1)),
           s1, t))
  /\ (truthy v = false ->
      wait_for_writable s =
        (Raise (ObjectDisabledException ("object is disabled " ++ repr s1)),
         s1, t))
  /\ (forall r1 s2 t2 r2 s3 t3,
        truthy v = true ->
        getattr_readonly s1 = (Return r1, s2, t2) -> truthy r1 = true ->
        self_readonly s2 = (Return r2, s3, t3) -> truthy r2 = true ->
        wait_for_writable s =
          (Raise (ObjectReadOnlyException ("object is read only " ++ repr s3)),
           s3, (t ++ t2 ++ t3)%list)).
Proof.
  intros Hr Hc.
  assert (He : _assert_enabled s =
               (if truthy v then (Return tt, s1, t)
                else (Raise (ObjectDisabledException
                               ("object is disabled " ++ repr s1)), s1, t))).
  { unfold _assert_enabled, bind at 1. rewrite Hc.
    destruct (truthy v); cbn [negb].
    - cbn. now rewrite app_nil_r.
    - rewrite bind_gets. cbn. now rewrite app_nil_r. }
  split; [|split].
  - unfold wait_for_enabled. now rewrite bind_gets, Hr.
  - intros Hv. unfold wait_for_writable. rewrite bind_gets, Hr. cbn [negb].
    unfold _assert_writable, bind at 1. now rewrite He, Hv.
  - intros r1 s2 t2 r2 s3 t3 Hv H1 Hr1 H2 Hr2.
    unfold wait_for_writable. rewrite bind_gets, Hr. cbn [negb].
    unfold _assert_writable, bind at 1. rewrite He, Hv.
    unfold bind at 1. rewrite H1, Hr1. unfold bind at 1. rewrite H2, Hr2.
    rewrite bind_gets. cbn. now rewrite app_nil_r.
Qed.

(** X8: for a class of element that has no [readonly] attribute, the
    not-read-only predicate answers [True] without calling anything, and the
    strict writability check is the enabled check and nothing more. *)
Theorem no_readonly_attribute_means_writable :
  readonly = None ->
  forall s : State,
    not_readonly s = (Return (VBool true), s, [])
    /\ _assert_writable s = _assert_enabled s
    /\ (relaxed_locate s = false -> wait_for_writable s = wait_for_enabled s).
Proof.
  intros Hro s.
  assert (Hw : forall s0 : State, _assert_writable s0 = _assert_enabled s0).
  { intros s0. unfold _assert_writable, getattr_readonly. rewrite Hro.
    unfold bind at 1.
    destruct (_assert_enabled s0) as [[[[]|e] s1] t1]; [|reflexivity].
    cbn. now rewrite app_nil_r. }
  split; [|split].
  - unfold not_readonly, getattr_readonly. now rewrite Hro.
  - apply Hw.
  - intros Hr. unfold wait_for_writable, wait_for_enabled.
    rewrite !bind_gets, Hr. apply Hw.
Qed.

(** *** Resolution *)

(** X9: an element that holds a native handle and no selector is never
    run through the locator. When its handle has gone stale, [assert_exists]
    drops the handle and raises [UnknownObjectException]. *)
Theorem handle_only_element_is_never_located (s : State) h :
  element s = Some h -> selector s = [] ->
  occurrences EvLocate (trace_of (assert_exists s)) = 0
  /\ (forall s1 t1 s2 t2,
        _ensure_context s = (Return tt, s1, t1) ->
        stale s1 = (Return true, s2, t2) ->
        assert_exists s =
          (Raise (UnknownObjectException
                    ("unable to locate element: " ++ repr (set_element None s2))),
           set_element None s2, (t1 ++ t2)%list)).
Proof.
  intros He Hs. split.
  - exact (proj1 (assert_exists_bare _ _ He Hs)).
  - intros s1 t1 s2 t2 Hc Hst.
    now rewrite (assert_exists_bare_run _ _ He Hs), Hc, Hst.
Qed.

(** X10: a handle the locator finds is cached and reused. After a first
    [assert_exists] has located the element, a second one costs one liveness
    probe and does not run the locator again, as long as the probe finds the
    handle alive. *)
Theorem located_handle_is_reused (s : State) h s1 t1 v s2 :
  element s = None ->
  locate s = (Return (Some h), s1, t1) ->
  selector s1 <> [] ->
  wd_enabled h (set_element (Some h) s1) = (Return v, s2) ->
  assert_exists s = (Return tt, set_element (Some h) s1, t1)
  /\ assert_twice s = (Return tt, s2, (t1 ++ [EvProbe])%list).
Proof.
  intros He Hl Hs Hp.
  assert (H1 : assert_exists s = (Return tt, set_element (Some h) s1, t1))
    by now rewrite (assert_exists_unresolved _ He), resolve_run, Hl.
  split; [exact H1|].
  unfold assert_twice, bind. rewrite H1.
  assert (He1 : element (set_element (Some h) s1) = Some h) by reflexivity.
  destruct (selector s1) as [|[k w] rest] eqn:Hs1; [congruence|].
  assert (Hs2 : selector (set_element (Some h) s1) = (k, w) :: rest)
    by exact Hs1.
  rewrite (assert_exists_cached _ _ _ _ _ He1 Hs2), (stale_cached _ _ He1), Hp.
  reflexivity.
Qed.

(** X11: [reset] forgets the cached handle, so the next [assert_exists]
    goes through the locator whatever was cached before; a [stale] query
    right after a [reset] raises [Error]. *)
Theorem reset_forces_locate (s : State) :
  reset_then_assert s = resolve (set_element None s)
  /\ (exists msg, outcome_of (bind reset (fun _ => stale) s) = Raise (Error msg)).
Proof.
  split.
  - unfold reset_then_assert, bind, reset, modify.
    rewrite assert_exists_unresolved by reflexivity.
    now destruct (resolve (set_element None s)) as [[r s1] t1].
  - unfold bind, reset, modify. rewrite stale_unused by reflexivity.
    eexists. reflexivity.
Qed.

(** *** Calling an action *)

(** X12: staleness raised by the existence check itself is retried too:
    the check is run once more and the action follows it. If the second
    check fails, that failure propagates and the action is never run. *)
Theorem stale_check_is_retried {A} (m0 : State -> outcome A * State)
    (ec0 : State -> outcome unit * State) (s : State) :
  let run := _element_call (call EvMethod m0) (Some (call EvExistCheck ec0)) s in
  let s0 := state_of (acquire_timer s) in
  (forall s1 s2 r s3,
     ec0 s0 = (Raise StaleElementReferenceException, s1) ->
     ec0 s1 = (Return tt, s2) -> m0 s2 = (r, s3) ->
     outcome_of run = r
     /\ calls (trace_of run) = [EvExistCheck; EvExistCheck; EvMethod]
     /\ state_of run = state_of (release_timer s3))
  /\ (forall s1 e s2,
        ec0 s0 = (Raise StaleElementReferenceException, s1) ->
        ec0 s1 = (Raise e, s2) ->
        outcome_of run = Raise e
        /\ calls (trace_of run) = [EvExistCheck; EvExistCheck]
        /\ state_of run = state_of (release_timer s2)).
Proof.
  intros run s0. subst run. rewrite element_call_run. fold s0.
  rewrite attempt_run. cbv zeta. rewrite pass_run. split.
  - intros s1 s2 r s3 H1 H2 H3. rewrite H1, pass_run, H2, H3.
    cbn [outcome_of state_of trace_of].
    rewrite (proj1 (calls_framed _ s s3)). auto.
  - intros s1 e s2 H1 H2. rewrite H1, pass_run, H2.
    cbn [outcome_of state_of trace_of].
    rewrite (proj1 (calls_framed _ s s2)). auto.
Qed.

(** X13: in relaxed mode, a failure of the owning scope's
    [wait_for_exists] that is not a timeout is passed on as it is: it is not
    turned into this element's [UnknownObjectException], no advice is
    emitted, and the element's own existence is not looked at again. *)
Theorem scope_failure_is_not_rewrapped (s : State) s1 t1 e s2 :
  relaxed_locate s = true ->
  exists_ s = (Return false, s1, t1) ->
  scope_wait_for_exists s1 = (Raise e, s2) ->
  e <> TimeoutError ->
  wait_for_exists s = (Raise e, s2, (t1 ++ [EvScopeWaitForExists])%list).
Proof.
  intros Hr Hx Hsc Hne. rewrite (wait_for_exists_relaxed _ Hr), Hx.
  unfold try_except. rewrite scope_then_poll, Hsc.
  destruct e; try reflexivity. congruence.
Qed.

(** *** How often a call is made *)

Lemma at_most_bind {A B} ev a b (c : M A) (k : A -> M B) :
  at_most ev a c -> (forall x, at_most ev b (k x)) ->
  at_most ev (a + b) (bind c k).
Proof.
  intros Hc Hk s. unfold bind. specialize (Hc s).
  destruct (c s) as [[[x|e] s1] t1]; cbn [trace_of] in *; [|lia].
  specialize (Hk x s1). destruct (k x s1) as [[r s2] t2].
  cbn [trace_of] in *. rewrite occurrences_app. lia.
Qed.

Lemma at_most_attempt {A} ev a b (m : M A) (ec : M unit) :
  at_most ev a ec -> at_most ev b m ->
  at_most ev (2 * (a + b)) (attempt m ec).
Proof.
  intros Hec Hm.
  assert (Hp : at_most ev (a + b) (bind ec (fun _ => m)))
    by (apply at_most_bind; auto).
  intros s. unfold attempt, try_except. pose proof (Hp s) as H1.
  destruct (bind ec (fun _ => m) s) as [[[x|e] s1] t1]; cbn [trace_of] in *;
    [lia|].
  destruct e; cbn [trace_of]; try lia.
  pose proof (Hp s1) as H2.
  destruct (bind ec (fun _ => m) s1) as [[r s2] t2]. cbn [trace_of] in *.
  rewrite occurrences_app. lia.
Qed.

Lemma at_most_element_call {A} ev a b (m : M A) (ec : M unit) :
  timer_event ev = false ->
  at_most ev a ec -> at_most ev b m ->
  at_most ev (2 * (a + b)) (_element_call m (Some ec)).
Proof.
  intros Hev Hec Hm s. rewrite element_call_run.
  pose proof (at_most_attempt ev a b m ec Hec Hm (state_of (acquire_timer s)))
    as Ha.
  destruct (attempt m ec (state_of (acquire_timer s))) as [[r sb] tb].
  cbn [trace_of] in *. rewrite !occurrences_app.
  assert (H1 : occurrences ev (trace_of (acquire_timer s)) = 0).
  { unfold acquire_timer. destruct (is_None (locked (Wait_timer s)));
      [|reflexivity]. destruct ev; cbn in *; congruence. }
  assert (H2 : occurrences ev (trace_of (release_timer sb)) = 0).
  { unfold release_timer. destruct (is_None (locked (Wait_timer sb)));
      [|reflexivity]. destruct ev; cbn in *; congruence. }
  lia.
Qed.

(** X14: whatever the check and the action are, a call through
    [_element_call] makes any call to a collaborator at most twice as often
    as one pass of check and action does. *)
Theorem element_call_at_most_doubles {A} ev a b (m : M A) (ec : M unit) :
  timer_event ev = false ->
  at_most ev a ec -> at_most ev b m ->
  at_most ev (2 * (a + b)) (_element_call m (Some ec)).
Proof. exact (at_most_element_call ev a b m ec). Qed.

(** X15: reading [enabled] never waits: it does not poll, does not wait
    for the owning scope and emits no warning, in relaxed mode as in strict
    mode; and it runs the locator at most twice. *)
Theorem enabled_never_waits (s : State) :
  forallb (fun ev => negb (waits ev)) (trace_of (enabled s)) = true
  /\ occurrences EvLocate (trace_of (enabled s)) <= 2.
Proof.
  split.
  - apply emits_element_call; try reflexivity.
    + unfold element_enabled. apply emits_bind; [apply emits_gets|].
      intros [h|]; [now apply emits_call|apply emits_raise].
    + apply emits_assert_exists. intros ev; destruct ev; cbn; congruence.
  - apply (at_most_element_call EvLocate 1 0); [reflexivity| |].
    + intros s0. apply assert_exists_trace.
    + intros s0. unfold element_enabled. rewrite bind_gets.
      destruct (element s0); [rewrite call_run|]; cbn; lia.
Qed.

(** *** Reads through the driver *)

Variable wd_displayed : handle -> State -> outcome value * State.
Variable wd_get_attribute : string -> handle -> State -> outcome value * State.
Variable wd_text : handle -> State -> outcome value * State.
Variable wd_tag_name : handle -> State -> outcome value * State.
Variable wildcard_attribute : string -> bool.

Lemma on_element_run {A} attr (f : handle -> State -> outcome A * State)
    (s : State) :
  on_element attr f s =
    match element s with
    | Some h => (fst (f h s), snd (f h s), [EvMethod])
    | None =>
        (Raise (AttributeError
                  ("'NoneType' object has no attribute '" ++ attr ++ "'")),
         s, [])
    end.
Proof.
  unfold on_element. rewrite bind_gets.
  destruct (element s); [apply call_run|reflexivity].
Qed.

(** X16: [present] is [visible] with [UnknownObjectException] turned into
    the answer [False]: it never raises that exception, it answers [False],
    in the state and after the calls of [visible], when [visible] raises it,
    and it answers what [visible] answers when [visible] returns. *)
Theorem present_absorbs_unknown_object (s : State) :
  (forall m, outcome_of (present wd_displayed s)
             <> Raise (UnknownObjectException m))
  /\ (forall m s1 t1,
        visible wd_displayed s = (Raise (UnknownObjectException m), s1, t1) ->
        present wd_displayed s = (Return (VBool false), s1, t1))
  /\ (forall v s1 t1,
        visible wd_displayed s = (Return v, s1, t1) ->
        present wd_displayed s = (Return v, s1, t1)).
Proof.
  unfold present, try_except.
  destruct (visible wd_displayed s) as [[[v|e] s1] t1].
  - repeat split; intros; try discriminate. exact H.
  - destruct e; cbn; (split; [intros; discriminate|]);
      split; intros m0 s2 t2 H; inversion H; subst;
      rewrite ?app_nil_r; reflexivity.
Qed.

(** X17: [value] is the attribute [value] with every falsy answer, [None]
    included, replaced by the empty string: a truthy attribute value is
    returned as it is, a falsy one gives the empty string, and so does an
    [InvalidElementStateException], which is never raised. So what [value]
    returns is the empty string or a truthy object. *)
Theorem value_is_a_string_or_truthy (s : State) :
  (forall v s1 t1,
     attribute_value wd_get_attribute "value" s = (Return v, s1, t1) ->
     value_ wd_get_attribute s
     = (Return (if truthy v then v else VStr EmptyString), s1, t1))
  /\ (forall s1 t1,
        attribute_value wd_get_attribute "value" s
        = (Raise InvalidElementStateException, s1, t1) ->
        value_ wd_get_attribute s = (Return (VStr EmptyString), s1, t1))
  /\ (forall v, outcome_of (value_ wd_get_attribute s) = Return v ->
                v = VStr EmptyString \/ truthy v = true)
  /\ outcome_of (value_ wd_get_attribute s)
     <> Raise InvalidElementStateException.
Proof.
  unfold value_, try_except, bind.
  destruct (attribute_value wd_get_attribute "value" s) as [[[v0|e] s1] t1].
  - cbn. split; [|split; [|split]].
    + intros v s2 t2 H. inversion H; subst. now rewrite app_nil_r.
    + intros; discriminate.
    + intros v H. injection H as <-. destruct (truthy v0) eqn:Ht; auto.
    + discriminate.
  - destruct e; cbn; (split; [intros; discriminate|]);
      (split; [intros s2 t2 H; inversion H; subst;
               rewrite ?app_nil_r; reflexivity|]);
      (split; [intros v H; try discriminate|try discriminate]).
    injection H as <-. auto.
Qed.

(** The outcome of a call is the outcome of one pass of check and action. *)
Lemma element_call_outcome {A} (m : M A) ec (s : State) :
  let chk := match ec with Some f => f | None => wait_for_exists end in
  exists s0,
    outcome_of (_element_call m ec s) = outcome_of (bind chk (fun _ => m) s0).
Proof.
  intros chk.
  assert (Hsame : _element_call m ec s = _element_call m (Some chk) s)
    by (destruct ec; reflexivity).
  rewrite Hsame, element_call_run.
  set (s1 := state_of (acquire_timer s)).
  assert (Ha : exists s0, outcome_of (attempt m chk s1)
                          = outcome_of (bind chk (fun _ => m) s0)).
  { unfold attempt, try_except.
    destruct (bind chk (fun _ => m) s1) as [[[x|e] s2] t2] eqn:Hp.
    - exists s1. now rewrite Hp.
    - destruct e; try (exists s1; now rewrite Hp).
      exists s2. now destruct (bind chk (fun _ => m) s2) as [[r s3] t3]. }
  destruct Ha as [s0 Ha]. exists s0. rewrite <- Ha.
  now destruct (attempt m chk s1) as [[r sb] tb].
Qed.

Lemma element_call_of_failure {A} (m : M A) ec (s : State) :
  (forall s0, exists e, outcome_of (m s0) = Raise e) ->
  forall a, outcome_of (_element_call m ec s) <> Return a.
Proof.
  intros Hm a. destruct (element_call_outcome m ec s) as [s0 ->].
  unfold bind.
  destruct (match ec with Some f => f | None => wait_for_exists end s0)
    as [[[u|e] s1] t1]; [|discriminate].
  destruct (Hm s1) as [e He]. destruct (m s1) as [[r s2] t2].
  cbn in *. congruence.
Qed.

(** X18: [text] never returns a value. The text is read from the handle
    before [_element_call] is entered and the string read, not a callable,
    is handed over as the action: on an unresolved element the read raises
    [AttributeError], and otherwise calling the string raises. *)
Theorem text_never_returns (s : State) v :
  outcome_of (text wd_text s) <> Return v.
Proof.
  unfold text, bind. rewrite on_element_run.
  destruct (element s) as [h|]; [|discriminate].
  destruct (wd_text h s) as [[v0|e] s1]; [|discriminate].
  cbn [fst snd].
  pose proof (element_call_of_failure (A := value) (call_object v0) None s1)
    as H.
  destruct (_element_call (call_object v0) None s1) as [[r s2] t2].
  cbn in *. apply H. intros s0. eexists. reflexivity.
Qed.

Lemma element_call_of_constant {A} (x : A) ec (s : State) a :
  outcome_of (_element_call (ret x) ec s) = Return a -> a = x.
Proof.
  destruct (element_call_outcome (ret x) ec s) as [s0 ->].
  unfold bind, ret.
  destruct (match ec with Some f => f | None => wait_for_exists end s0)
    as [[[u|e] s1] t1]; cbn; congruence.
Qed.

(** X19: [tag_name] reads the tag from the cached handle before any
    existence check. A failure of that read, staleness included, propagates
    at once: no check, no retry, no timer. When the read succeeds, the value
    returned is that tag in lower case, whatever the existence check that
    runs afterwards does. *)
Theorem tag_name_reads_before_checking (s : State) h :
  element s = Some h ->
  (forall e s1,
     wd_tag_name h s = (Raise e, s1) ->
     tag_name wd_tag_name s = (Raise e, s1, [EvMethod]))
  /\ (forall t s1 v,
        wd_tag_name h s = (Return (VStr t), s1) ->
        outcome_of (tag_name wd_tag_name s) = Return v ->
        v = VStr (lower t)).
Proof.
  intros He. unfold tag_name, bind. rewrite on_element_run, He. split.
  - intros e s1 H. now rewrite H.
  - intros t s1 v H. rewrite H. cbn [fst snd].
    pose proof (element_call_of_constant (VStr (lower t)) None s1 v) as Hc.
    destruct (_element_call (ret (VStr (lower t))) None s1) as [[r s2] t2].
    cbn in *. exact Hc.
Qed.

Lemma dashed_has_no_underscore item : has_underscore (dashed item) = false.
Proof.
  induction item as [|c r IH]; [reflexivity|].
  cbn [dashed has_underscore]. rewrite IH.
  destruct (Ascii.eqb c "_") eqn:Hc; [reflexivity|]. now rewrite Hc.
Qed.

Lemma dashed_length item : String.length (dashed item) = String.length item.
Proof. induction item as [|c r IH]; cbn; congruence. Qed.

(** X21: an attribute that is not defined is read from the element only
    when its name matches the wildcard pattern; the name sent to the driver
    is the same name with every underscore turned into a dash. Any other
    name raises [AttributeError] and nothing is called. *)
Theorem getattr_reads_dashed_name (item : string) :
  has_underscore (dashed item) = false
  /\ String.length (dashed item) = String.length item
  /\ (wildcard_attribute item = true ->
      __getattr__ wd_get_attribute wildcard_attribute item
      = attribute_value wd_get_attribute (dashed item))
  /\ (wildcard_attribute item = false ->
      forall s : State,
        exists msg,
          __getattr__ wd_get_attribute wildcard_attribute item s
          = (Raise (AttributeError msg), s, [])).
Proof.
  split; [apply dashed_has_no_underscore|].
  split; [apply dashed_length|]. unfold __getattr__. split.
  - intros H. now rewrite H.
  - intros H s. rewrite H. eexists. reflexivity.
Qed.

End Methods.

(** *** Names *)






(** *** Runs on the small page *)

Import Demo DemoMore.

Lemma probe_keeps_element (h : nat) (s : St) :
  element (snd (probe h s)) = element s.
Proof. destruct h as [|[|[|[|n]]]]; reflexivity. Qed.

Lemma exists_never_raises_not_found_witness :
  @exists_ _ _ _ page (world None 0 true 5 idle)
  = (Return false, world None 0 true 5 idle, [EvScopeAssertExists; EvLocate])
  /\ @exists_ _ _ _ framed_page (world None 0 true 5 idle)
     = (Return false, world None 0 true 5 idle, [EvScopeAssertExists])
  /\ @exists_ _ _ _ page (world (Some 1) 1 true 5 idle)
     = (Return true, world (Some 1) 1 true 5 idle, [EvProbe]).
Proof.
  split; [|split].
  - exact (proj1 (proj2 (proj2
      (@exists_never_raises_not_found _ _ _ page (world None 0 true 5 idle))))
      _ _ _ eq_refl).
  - exact (proj1 (proj2 (proj2 (proj2
      (@exists_never_raises_not_found _ _ _ framed_page
         (world None 0 true 5 idle)))))
      _ _ _ eq_refl).
  - exact (proj1 (proj2 (proj2 (proj2 (proj2
      (@exists_never_raises_not_found _ _ _ page
         (world (Some 1) 1 true 5 idle))))))
      _ _ eq_refl).
Defined.

Lemma wd_returns_a_handle_witness :
  outcome_of (@wd _ _ _ page (world None 1 true 5 idle)) <> Return None
  /\ element (state_of (@assert_exists _ _ _ page (world None 1 true 5 idle)))
     <> None.
Proof.
  pose proof (@wd_returns_a_handle _ _ _ page probe_keeps_element
                (world None 1 true 5 idle)) as H.
  exact (conj (proj2 H) (proj1 H eq_refl)).
Defined.

Lemma wait_for_present_asks_scope_first_witness :
  outcome_of (@wait_for_present _ _ _ hidden_page (world (Some 1) 1 true 5 idle))
  = Raise (UnknownObjectException
      "timed out after 5 seconds, waiting for #<#Element: located: True; {'id': 'a'}> to be located")
  /\ trace_of (@wait_for_present _ _ _ hidden_page
                 (world (Some 1) 1 true 5 idle))
     = [EvScopeWaitForPresent; EvWarn].
Proof.
  pose proof (proj1 (proj2
    (@wait_for_present_asks_scope_first _ _ _ hidden_page
       (world (Some 1) 1 true 5 idle) eq_refl)) _ eq_refl) as H.
  exact (conj (f_equal outcome_of H) (f_equal trace_of H)).
Defined.

Lemma strict_usable_checks_witness :
  outcome_of (@wait_for_writable _ _ _ page (world (Some 2) 2 false 5 idle))
  = Raise (ObjectDisabledException
      "object is disabled #<#Element: located: True; {'id': 'a'}>")
  /\ outcome_of (@wait_for_writable _ _ _ page (world (Some 3) 3 false 5 idle))
     = Raise (ObjectReadOnlyException
         "object is read only #<#Element: located: True; {'id': 'a'}>")
  /\ outcome_of (@wait_for_enabled _ _ _ page (world (Some 3) 3 false 5 idle))
     = Return tt.
Proof.
  split; [|split].
  - exact (f_equal outcome_of
      (proj1 (proj2
         (@strict_usable_checks _ _ _ page (world (Some 2) 2 false 5 idle)
            _ _ _ eq_refl eq_refl)) eq_refl)).
  - exact (f_equal outcome_of
      (proj2 (proj2
         (@strict_usable_checks _ _ _ page (world (Some 3) 3 false 5 idle)
            _ _ _ eq_refl eq_refl))
         _ _ _ _ _ _ eq_refl eq_refl eq_refl eq_refl eq_refl)).
  - exact (f_equal outcome_of
      (proj1
         (@strict_usable_checks _ _ _ page (world (Some 3) 3 false 5 idle)
            _ _ _ eq_refl eq_refl))).
Defined.

Lemma no_readonly_attribute_means_writable_witness :
  @not_readonly _ _ _ framed_page (world (Some 1) 1 false 5 idle)
  = (Return (VBool true), world (Some 1) 1 false 5 idle, []).
Proof.
  exact (proj1 (@no_readonly_attribute_means_writable _ _ _ framed_page
                  eq_refl (world (Some 1) 1 false 5 idle))).
Defined.

Lemma handle_only_element_is_never_located_witness :
  @assert_exists _ _ _ page (bare 0 false)
  = (Raise (UnknownObjectException
       "unable to locate element: #<#Element: located: False; {element: (selenium element)}>"),
     set_element None (bare 0 false), [EvScopeAssertExists; EvProbe]).
Proof.
  exact (proj2 (@handle_only_element_is_never_located _ _ _ page
                  (bare 0 false) 0 eq_refl eq_refl)
           _ _ _ _ eq_refl eq_refl).
Defined.

Lemma located_handle_is_reused_witness :
  @assert_twice _ _ _ page (world None 1 true 5 idle)
  = (Return tt, world (Some 1) 1 true 5 idle,
     [EvScopeAssertExists; EvLocate; EvProbe]).
Proof.
  refine (proj2 (@located_handle_is_reused _ _ _ page
                   (world None 1 true 5 idle) 1 _ _ _ _
                   eq_refl eq_refl _ eq_refl)).
  discriminate.
Defined.

Lemma stale_check_is_retried_witness :
  let run := @_element_call _ _ _ page _ (call EvMethod click)
               (Some (call EvExistCheck recheck))
               (world (Some 0) 0 true 5 idle) in
  outcome_of run = Return VNone
  /\ calls (trace_of run) = [EvExistCheck; EvExistCheck; EvMethod].
Proof.
  pose proof (proj1 (@stale_check_is_retried _ _ _ page _ click recheck
                       (world (Some 0) 0 true 5 idle))
                _ _ _ _ eq_refl eq_refl eq_refl) as H.
  exact (conj (proj1 H) (proj1 (proj2 H))).
Defined.

Lemma scope_failure_is_not_rewrapped_witness :
  @wait_for_exists _ _ _ framed_page (world None 0 true 5 idle)
  = (Raise (UnknownFrameException "no frame"), world None 0 true 5 idle,
     [EvScopeAssertExists; EvScopeWaitForExists]).
Proof.
  refine (@scope_failure_is_not_rewrapped _ _ _ framed_page
            (world None 0 true 5 idle) _ _ _ _ eq_refl eq_refl eq_refl _).
  discriminate.
Defined.

Lemma click_once : @at_most _ _ _ _ EvMethod 1 (call EvMethod click).
Proof. intros s. rewrite call_run. cbn. lia. Qed.

Lemma recheck_no_click :
  @at_most _ _ _ _ EvMethod 0 (call EvExistCheck recheck).
Proof. intros s. rewrite call_run. cbn. lia. Qed.

Lemma element_call_at_most_doubles_witness :
  occurrences EvMethod
    (trace_of (@_element_call _ _ _ page _ (call EvMethod click)
                 (Some (call EvExistCheck recheck))
                 (world (Some 0) 1 true 5 idle))) <= 2.
Proof.
  exact (@element_call_at_most_doubles _ _ _ page _ EvMethod 0 1 _ _
           eq_refl recheck_no_click click_once
           (world (Some 0) 1 true 5 idle)).
Defined.

Lemma present_absorbs_unknown_object_witness :
  outcome_of (@present _ _ _ page shown (world None 0 false 5 idle))
  = Return (VBool false)
  /\ outcome_of (@present _ _ _ page shown (world (Some 1) 1 false 5 idle))
     = Return (VBool true).
Proof.
  split.
  - exact (f_equal outcome_of
      (proj1 (proj2 (@present_absorbs_unknown_object _ _ _ page shown
                       (world None 0 false 5 idle)))
         _ _ _ eq_refl)).
  - exact (f_equal outcome_of
      (proj2 (proj2 (@present_absorbs_unknown_object _ _ _ page shown
                       (world (Some 1) 1 false 5 idle)))
         _ _ _ eq_refl)).
Defined.

Lemma value_is_a_string_or_truthy_witness :
  outcome_of (@value_ _ _ _ page attribute (world (Some 2) 2 false 5 idle))
  = Return (VStr EmptyString)
  /\ outcome_of (@value_ _ _ _ page attribute (world (Some 3) 3 false 5 idle))
     = Return (VStr EmptyString)
  /\ outcome_of (@value_ _ _ _ page attribute (world (Some 1) 1 false 5 idle))
     = Return (VStr "abc").
Proof.
  split; [|split].
  - exact (f_equal outcome_of
      (proj1 (proj2 (@value_is_a_string_or_truthy _ _ _ page attribute
                       (world (Some 2) 2 false 5 idle)))
         _ _ eq_refl)).
  - exact (f_equal outcome_of
      (proj1 (@value_is_a_string_or_truthy _ _ _ page attribute
                (world (Some 3) 3 false 5 idle))
         _ _ _ eq_refl)).
  - exact (f_equal outcome_of
      (proj1 (@value_is_a_string_or_truthy _ _ _ page attribute
                (world (Some 1) 1 false 5 idle))
         _ _ _ eq_refl)).
Defined.

Lemma tag_name_reads_before_checking_witness :
  @tag_name _ _ _ page label (world (Some 0) 1 true 5 idle)
  = (Raise StaleElementReferenceException, world (Some 0) 1 true 5 idle,
     [EvMethod])
  /\ (forall v,
        outcome_of (@tag_name _ _ _ page label (world (Some 1) 1 true 5 idle))
        = Return v -> v = VStr "input").
Proof.
  split.
  - exact (proj1 (@tag_name_reads_before_checking _ _ _ page label
                    (world (Some 0) 1 true 5 idle) 0 eq_refl)
             _ _ eq_refl).
  - intros v.
    exact (proj2 (@tag_name_reads_before_checking _ _ _ page label
                    (world (Some 1) 1 true 5 idle) 1 eq_refl)
             "INPUT" _ v eq_refl).
Defined.

Lemma getattr_reads_dashed_name_witness :
  @__getattr__ _ _ _ page attribute data_or_aria "data_row_id"
  = @attribute_value _ _ _ page attribute "data-row-id"
  /\ (exists msg,
        @__getattr__ _ _ _ page attribute data_or_aria "colour"
          (world (Some 1) 1 true 5 idle)
        = (Raise (AttributeError msg), world (Some 1) 1 true 5 idle, [])).
Proof.
  split.
  - exact (proj1 (proj2 (proj2
      (@getattr_reads_dashed_name _ _ _ page attribute data_or_aria
         "data_row_id"))) eq_refl).
  - exact (proj2 (proj2 (proj2
      (@getattr_reads_dashed_name _ _ _ page attribute data_or_aria
         "colour"))) eq_refl (world (Some 1) 1 true 5 idle)).
Defined.

End MoreProps.
